(** * SuperCETES: the error normalizer, the Stellar helpers and the UI gate

    A shallow embedding of [src/stellarMainnetExample.ts] and of the
    operation gating of [src/App.tsx].

    - [JS]: the fragment of JavaScript the code runs on: values, a heap of
      objects, truthiness, [ToString], [Array.prototype.join] and
      [JSON.stringify], with exceptions as an error monad.
    - [StellarMainnetExample]: [parseAxiosError], [parseHorizonError],
      [formatStellarError], and the SDK call sequences of the exported
      helpers as programs over a trace of SDK calls.
    - [App]: the [operationInFlight] state machine of the React component. *)

From Stdlib Require Import ZArith List String Ascii Bool Arith Lia DecimalString.
Import ListNotations.
Open Scope string_scope.

(* ===================================================================== *)
(** ** The JavaScript fragment *)
(* ===================================================================== *)

Module JS.

(** Heap addresses of objects. *)
Definition loc := nat.

(** Values of type [unknown].  Strings hold the UTF-8 bytes of the text.
    Numbers are the integers JavaScript prints in plain decimal (an HTTP
    status is one); BigInts are kept apart because [JSON.stringify] rejects
    them.  Objects are references, so that a heap can hold cycles. *)
Inductive value : Type :=
| VUndefined
| VNull
| VBool (b : bool)
| VNumber (n : Z)
| VBigInt (n : Z)
| VString (s : string)
| VObject (l : loc).

(** The values that are not objects. *)
Inductive primitive : Type :=
| PUndefined
| PNull
| PBool (b : bool)
| PNumber (n : Z)
| PBigInt (n : Z)
| PString (s : string).

Definition value_of (p : primitive) : value :=
  match p with
  | PUndefined => VUndefined
  | PNull => VNull
  | PBool b => VBool b
  | PNumber n => VNumber n
  | PBigInt n => VBigInt n
  | PString s => VString s
  end.

(** The prototype of an object: [Object.prototype], or [Error.prototype]
    for what [instanceof Error] accepts.  An [Error] instance carries its
    [message]: the string the [Error] constructor made, or whatever
    primitive value was assigned to the property since (lib.es5.d.ts types
    it as a string, nothing checks it).  It is not enumerable, and [name]
    is the inherited ["Error"]. *)
Inductive objclass : Type :=
| PlainObject
| ErrorInstance (message : primitive).

(** An object: its class and its own enumerable data properties in
    enumeration order (for an [Error] instance, those besides [message]). *)
Record object : Type := mkObject {
  cls : objclass;
  props : list (string * value)
}.

Definition heap := list object.

Definition empty_object : object := mkObject PlainObject [].

(** The object a reference denotes (a dangling one reads as [{}]). *)
Definition obj_at (h : heap) (l : loc) : object := nth l h empty_object.

(** *** Exceptions *)

Inductive exn : Type :=
| TypeError_circular      (* JSON.stringify met an object that is its own ancestor *)
| TypeError_bigint        (* JSON.stringify met a BigInt *)
| RangeError_stack        (* the call stack is exhausted *)
| Thrown (h : heap) (v : value).  (* [throw v], with the heap [v] lives in *)

Inductive result (A : Type) : Type :=
| Ok (a : A)
| Throw (e : exn).
Arguments Ok {A} a.
Arguments Throw {A} e.

Definition bind {A B} (m : result A) (k : A -> result B) : result B :=
  match m with
  | Ok a => k a
  | Throw e => Throw e
  end.

(** [try { m } catch { handler }] *)
Definition try_catch {A} (m : result A) (handler : exn -> result A) : result A :=
  match m with
  | Ok a => Ok a
  | Throw e => handler e
  end.

Notation "x <- m ;; k" := (bind m (fun x => k))
  (at level 61, m at next level, right associativity).

(** *** Property access *)

Fixpoint assoc (k : string) (ps : list (string * value)) : option value :=
  match ps with
  | [] => None
  | (k', v) :: rest => if String.eqb k k' then Some v else assoc k rest
  end.

(** The property [k] of an object, own or inherited.  Neither
    [Object.prototype] nor [Error.prototype] has a property of a name the
    program asks for, except [message] and [name] on the latter. *)
Definition lookup_property (o : object) (k : string) : option value :=
  match cls o with
  | ErrorInstance m =>
      if String.eqb k "message" then Some (value_of m)
      else if String.eqb k "name" then Some (VString "Error")
      else assoc k (props o)
  | PlainObject => assoc k (props o)
  end.

(** [k in o] *)
Definition has_property (h : heap) (l : loc) (k : string) : bool :=
  match lookup_property (obj_at h l) k with
  | Some _ => true
  | None => false
  end.

(** [o.k] for an object [o] *)
Definition get_property (h : heap) (l : loc) (k : string) : value :=
  match lookup_property (obj_at h l) k with
  | Some v => v
  | None => VUndefined
  end.

(** [v?.k]: [undefined] on [undefined] and [null]; a primitive is boxed,
    and no primitive wrapper has a property of a name the program asks
    for. *)
Definition optional_get (h : heap) (v : value) (k : string) : value :=
  match v with
  | VObject l => get_property h l k
  | _ => VUndefined
  end.

(** [v ?? d] *)
Definition nullish_coalesce (v d : value) : value :=
  match v with
  | VUndefined | VNull => d
  | _ => v
  end.

(** *** Truthiness and conversion to string *)

Definition nonempty (s : string) : bool := negb (String.eqb s "").

(** [Boolean(v)] *)
Definition truthy (v : value) : bool :=
  match v with
  | VUndefined | VNull => false
  | VBool b => b
  | VNumber n | VBigInt n => negb (n =? 0)%Z
  | VString s => nonempty s
  | VObject _ => true
  end.

(** [v || null] *)
Definition or_null (v : value) : value := if truthy v then v else VNull.

Definition Z_to_string (n : Z) : string := NilZero.string_of_int (Z.to_int n).

(** [Error.prototype.toString] on an instance with the message [m] and
    the inherited name: an undefined message counts as empty. *)
Definition Error_toString (m : primitive) : string :=
  let msg :=
    match m with
    | PUndefined => ""
    | PNull => "null"
    | PBool true => "true"
    | PBool false => "false"
    | PNumber n | PBigInt n => Z_to_string n
    | PString s => s
    end in
  if nonempty msg then "Error: " ++ msg else "Error".

(** [String(v)], as a template literal applies it. *)
Definition ToString (h : heap) (v : value) : string :=
  match v with
  | VUndefined => "undefined"
  | VNull => "null"
  | VBool true => "true"
  | VBool false => "false"
  | VNumber n | VBigInt n => Z_to_string n
  | VString s => s
  | VObject l =>
      match cls (obj_at h l) with
      | PlainObject => "[object Object]"
      | ErrorInstance m => Error_toString m
      end
  end.

(** [xs.join(sep)]: [undefined] and [null] elements print as nothing. *)
Definition join_element (h : heap) (v : value) : string :=
  match v with
  | VUndefined | VNull => ""
  | _ => ToString h v
  end.

Definition join (h : heap) (sep : string) (xs : list value) : string :=
  String.concat sep (map (join_element h) xs).

(** *** JSON.stringify *)

Definition quote_char : ascii := ascii_of_nat 34.
Definition dquote : string := String quote_char "".

Definition hex_digit (n : nat) : ascii :=
  ascii_of_nat (if (n <? 10)%nat then 48 + n else 87 + n).

(** One character inside a JSON string literal. *)
Definition escape_char (c : ascii) : string :=
  let n := nat_of_ascii c in
  if (n =? 8)%nat then "\b"
  else if (n =? 9)%nat then "\t"
  else if (n =? 10)%nat then "\n"
  else if (n =? 12)%nat then "\f"
  else if (n =? 13)%nat then "\r"
  else if (n =? 34)%nat then "\" ++ dquote
  else if (n =? 92)%nat then "\\"
  else if (n <? 32)%nat then
    "\u00" ++ String (hex_digit (n / 16)) (String (hex_digit (n mod 16)) "")
  else String c "".

Fixpoint escape (s : string) : string :=
  match s with
  | EmptyString => ""
  | String c rest => escape_char c ++ escape rest
  end.

Definition quote (s : string) : string := dquote ++ escape s ++ dquote.

(** The serializer.  [stack] holds the objects being serialized, innermost
    first: meeting one of them again is the circular-structure TypeError.
    A property whose value serializes to [undefined] is left out.  [fuel]
    bounds the nesting; running out of it is the engine's stack overflow,
    which [JSON_stringify_no_overflow] shows does not happen with the fuel
    [JSON_stringify] gives. *)
Fixpoint serialize (fuel : nat) (h : heap) (stack : list loc) (v : value)
  : result (option string) :=
  match v with
  | VUndefined => Ok None
  | VNull => Ok (Some "null")
  | VBool true => Ok (Some "true")
  | VBool false => Ok (Some "false")
  | VNumber n => Ok (Some (Z_to_string n))
  | VBigInt _ => Throw TypeError_bigint
  | VString s => Ok (Some (quote s))
  | VObject l =>
      if existsb (Nat.eqb l) stack then Throw TypeError_circular
      else
        match fuel with
        | O => Throw RangeError_stack
        | S fuel' =>
            let fix members (ps : list (string * value)) : result (list string) :=
              match ps with
              | [] => Ok []
              | (k, x) :: rest =>
                  match serialize fuel' h (l :: stack) x with
                  | Throw e => Throw e
                  | Ok None => members rest
                  | Ok (Some s) =>
                      match members rest with
                      | Throw e => Throw e
                      | Ok ms => Ok ((quote k ++ ":" ++ s) :: ms)
                      end
                  end
              end in
            match members (props (obj_at h l)) with
            | Throw e => Throw e
            | Ok ms => Ok (Some ("{" ++ String.concat "," ms ++ "}"))
            end
        end
  end.

(** [JSON.stringify(v)]: a string, or [undefined]. *)
Definition JSON_stringify (h : heap) (v : value) : result value :=
  r <- serialize (S (List.length h)) h [] v ;;
  Ok (match r with
      | Some s => VString s
      | None => VUndefined
      end).

(** *** String.prototype.trim *)

Definition bytes (codes : list nat) : string :=
  string_of_list_ascii (map ascii_of_nat codes).

(** The code points [trim] removes (WhiteSpace and LineTerminator of
    ECMAScript), in UTF-8. *)
Definition whitespace : list string :=
  [ bytes [9]; bytes [10]; bytes [11]; bytes [12]; bytes [13]; bytes [32];
    bytes [194; 160];                                      (* U+00A0 *)
    bytes [225; 154; 128];                                 (* U+1680 *)
    bytes [226; 128; 128]; bytes [226; 128; 129]; bytes [226; 128; 130];
    bytes [226; 128; 131]; bytes [226; 128; 132]; bytes [226; 128; 133];
    bytes [226; 128; 134]; bytes [226; 128; 135]; bytes [226; 128; 136];
    bytes [226; 128; 137]; bytes [226; 128; 138];          (* U+2000 .. U+200A *)
    bytes [226; 128; 168]; bytes [226; 128; 169];          (* U+2028, U+2029 *)
    bytes [226; 128; 175];                                 (* U+202F *)
    bytes [226; 129; 159];                                 (* U+205F *)
    bytes [227; 128; 128];                                 (* U+3000 *)
    bytes [239; 187; 191] ].                               (* U+FEFF *)

(** [s] without its prefix [p], if it starts with it. *)
Fixpoint strip_prefix (p s : string) : option string :=
  match p with
  | EmptyString => Some s
  | String c p' =>
      match s with
      | String d s' => if Ascii.eqb c d then strip_prefix p' s' else None
      | EmptyString => None
      end
  end.

Fixpoint strip_any (ps : list string) (s : string) : option string :=
  match ps with
  | [] => None
  | p :: rest =>
      match strip_prefix p s with
      | Some s' => Some s'
      | None => strip_any rest s
      end
  end.

(** Strip prefixes among [ps] as long as there is one; each takes a byte
    at least, so that a fuel of the length of [s] is enough
    ([trim_left_done]). *)
Fixpoint trim_left (ps : list string) (fuel : nat) (s : string) : string :=
  match fuel with
  | O => s
  | S fuel' =>
      match strip_any ps s with
      | Some s' => trim_left ps fuel' s'
      | None => s
      end
  end.

Fixpoint string_rev (s : string) : string :=
  match s with
  | EmptyString => EmptyString
  | String c rest => string_rev rest ++ String c EmptyString
  end.

Definition trimStart (s : string) : string :=
  trim_left whitespace (String.length s) s.

(** In well-formed UTF-8 the bytes of a code point at the end of a string
    are that code point, so the end is trimmed on the reversed bytes. *)
Definition trimEnd (s : string) : string :=
  string_rev (trim_left (map string_rev whitespace) (String.length s) (string_rev s)).

(** [s.trim()] *)
Definition trim (s : string) : string := trimEnd (trimStart s).

End JS.

(* ===================================================================== *)
(** ** stellarMainnetExample.ts: the error normalizer *)
(* ===================================================================== *)

Module StellarMainnetExample.
Import JS.

(** A [string | null] as a value. *)
Definition nullable (o : option string) : value :=
  match o with
  | Some s => VString s
  | None => VNull
  end.

(** The separator of the parts of a fragment: space, en dash, space. *)
Definition part_separator : string := " – ".

Definition parseAxiosError (h : heap) (error : value) : result (option string) :=
  match error with
  | VObject l =>
      if has_property h l "isAxiosError" && truthy (get_property h l "isAxiosError")
      then
        let response := get_property h l "response" in
        let status := optional_get h response "status" in
        let statusText := optional_get h response "statusText" in
        let message :=
          nullish_coalesce (get_property h l "message") (VString "Request failed") in
        let data := optional_get h response "data" in
        data_part <-
          (if truthy data
           then json <- JSON_stringify h data ;;
                Ok (VString ("Response: " ++ ToString h json))
           else Ok VNull) ;;
        let parts :=
          filter truthy
            [ if truthy status then VString ("HTTP " ++ ToString h status) else VNull;
              or_null statusText;
              or_null message;
              data_part ] in
        Ok (Some (if (0 <? List.length parts)%nat
                  then join h part_separator parts
                  else "Network request failed (Axios)."))
      else Ok None
  | _ => Ok None
  end.

(** The body of the [try] block of [parseHorizonError]; falling out of it
    without a part is the final [return null]. *)
Definition parseHorizonError_try (h : heap) (l : loc) : result (option string) :=
  let response := get_property h l "response" in
  let status := optional_get h response "status" in
  let title := optional_get h (optional_get h response "data") "title" in
  let detail := optional_get h (optional_get h response "data") "detail" in
  let extras := optional_get h (optional_get h response "data") "extras" in
  extras_part <-
    (if truthy extras
     then json <- JSON_stringify h extras ;;
          Ok (VString ("Extras: " ++ ToString h json))
     else Ok VNull) ;;
  let horizonParts :=
    filter truthy
      [ if truthy status then VString ("Horizon HTTP " ++ ToString h status) else VNull;
        or_null title;
        or_null detail;
        extras_part ] in
  if (0 <? List.length horizonParts)%nat
  then Ok (Some (join h part_separator horizonParts))
  else Ok None.

Definition parseHorizonError (h : heap) (error : value) : result (option string) :=
  match error with
  | VObject l =>
      if has_property h l "response" && has_property h l "status"
      then try_catch (parseHorizonError_try h l) (fun _ => Ok None)
      else Ok None
  | _ => Ok None
  end.

(** [error instanceof Error] *)
Definition instanceof_Error (h : heap) (error : value) : bool :=
  match error with
  | VObject l =>
      match cls (obj_at h l) with
      | ErrorInstance _ => true
      | PlainObject => false
      end
  | _ => false
  end.

(** [error.message] when [error instanceof Error && error.message] holds:
    the message of an [Error] instance, of whatever type, when it is
    truthy. *)
Definition error_message (h : heap) (error : value) : option value :=
  match error with
  | VObject l =>
      if instanceof_Error h error && truthy (get_property h l "message")
      then Some (get_property h l "message")
      else None
  | _ => None
  end.

(** [String(error.message)] when [typeof error === 'object' && error !==
    null && 'message' in error && typeof error.message === 'string']
    holds. *)
Definition string_message (h : heap) (error : value) : option string :=
  match error with
  | VObject l =>
      if has_property h l "message"
      then match get_property h l "message" with
           | VString s => Some s
           | _ => None
           end
      else None
  | _ => None
  end.

(** The function is declared to return a string; what it returns at run
    time is a value, since [error.message] of an [Error] instance is
    returned as it is. *)
Definition formatStellarError (h : heap) (error : value) (fallbackMessage : string)
  : result value :=
  axiosInfo <- parseAxiosError h error ;;
  horizonInfo <- parseHorizonError h error ;;
  if truthy (nullable axiosInfo) || truthy (nullable horizonInfo)
  then Ok (VString (join h " | " (filter truthy [nullable axiosInfo; nullable horizonInfo])))
  else
    match error_message h error with
    | Some m => Ok m
    | None =>
        match string_message h error with
        | Some s => Ok (VString s)
        | None => Ok (VString fallbackMessage)
        end
    end.

(** *** Sample errors *)

(** [{ response: { status: 400, data: { title: "Bad Request",
       detail: "op_underfunded" } } }] *)
Definition ledger_heap : heap :=
  [ mkObject PlainObject [("response", VObject 1)];
    mkObject PlainObject [("status", VNumber 400); ("data", VObject 2)];
    mkObject PlainObject
      [("title", VString "Bad Request"); ("detail", VString "op_underfunded")] ].

(** The same with a [status] of its own beside [response]. *)
Definition ledger_heap_with_status : heap :=
  [ mkObject PlainObject [("response", VObject 1); ("status", VNumber 400)];
    mkObject PlainObject [("status", VNumber 400); ("data", VObject 2)];
    mkObject PlainObject
      [("title", VString "Bad Request"); ("detail", VString "op_underfunded")] ].

(** [{ isAxiosError: true }] *)
Definition bare_axios_heap : heap :=
  [ mkObject PlainObject [("isAxiosError", VBool true)] ].

(** [{ isAxiosError: true, message: "" }] *)
Definition silent_axios_heap : heap :=
  [ mkObject PlainObject [("isAxiosError", VBool true); ("message", VString "")] ].

(** [{ isAxiosError: true, message: "Request failed",
       response: { status: 404, statusText: "Not Found", data: { x: 1 } } }] *)
Definition not_found_heap : heap :=
  [ mkObject PlainObject
      [("isAxiosError", VBool true); ("message", VString "Request failed");
       ("response", VObject 1)];
    mkObject PlainObject
      [("status", VNumber 404); ("statusText", VString "Not Found");
       ("data", VObject 2)];
    mkObject PlainObject [("x", VNumber 1)] ].

(** [d = {}; d.self = d; { isAxiosError: true, response: { data: d } }] *)
Definition cyclic_axios_heap : heap :=
  [ mkObject PlainObject [("isAxiosError", VBool true); ("response", VObject 1)];
    mkObject PlainObject [("data", VObject 2)];
    mkObject PlainObject [("self", VObject 2)] ].

(** [x = {}; x.self = x;
     { status: 0, response: { data: { title: "Bad Request", extras: x } } }] *)
Definition cyclic_extras_heap : heap :=
  [ mkObject PlainObject [("status", VNumber 0); ("response", VObject 1)];
    mkObject PlainObject [("data", VObject 2)];
    mkObject PlainObject [("title", VString "Bad Request"); ("extras", VObject 3)];
    mkObject PlainObject [("self", VObject 3)] ].

(** [{ code: 7 }] *)
Definition unrecognized_heap : heap :=
  [ mkObject PlainObject [("code", VNumber 7)] ].

(** [{ message: "" }] *)
Definition empty_message_heap : heap :=
  [ mkObject PlainObject [("message", VString "")] ].

(** [{ isAxiosError: true, message: "Request failed", status: 400,
       response: { status: 400, statusText: "Bad Request",
                   data: { title: "Transaction Failed", detail: "op_underfunded" } } }] *)
Definition both_shapes_heap : heap :=
  [ mkObject PlainObject
      [("isAxiosError", VBool true); ("message", VString "Request failed");
       ("status", VNumber 400); ("response", VObject 1)];
    mkObject PlainObject
      [("status", VNumber 400); ("statusText", VString "Bad Request");
       ("data", VObject 2)];
    mkObject PlainObject
      [("title", VString "Transaction Failed"); ("detail", VString "op_underfunded")] ].

(** The Axios fragment of that error. *)
Definition both_shapes_axios_fragment : string :=
  "HTTP 400 – Bad Request – Request failed – Response: {"
  ++ dquote ++ "title" ++ dquote ++ ":" ++ dquote ++ "Transaction Failed" ++ dquote
  ++ "," ++ dquote ++ "detail" ++ dquote ++ ":" ++ dquote ++ "op_underfunded"
  ++ dquote ++ "}".

(** [{ isAxiosError: true, message: "Request failed", status: 404,
       response: { status: 404, statusText: "Not Found", data: { x: 1 } } }]:
    the error of [not_found_heap] with the [status] of its own that an
    AxiosError carries. *)
Definition not_found_own_status_heap : heap :=
  [ mkObject PlainObject
      [("isAxiosError", VBool true); ("message", VString "Request failed");
       ("status", VNumber 404); ("response", VObject 1)];
    mkObject PlainObject
      [("status", VNumber 404); ("statusText", VString "Not Found");
       ("data", VObject 2)];
    mkObject PlainObject [("x", VNumber 1)] ].

(** [e = new Error("boom"); e.message = 42] *)
Definition numeric_message_heap : heap :=
  [ mkObject (ErrorInstance (PNumber 42)) [] ].

(** The rendering of [{ x: 1 }] by [JSON.stringify]. *)
Definition json_x_1 : string := "{" ++ dquote ++ "x" ++ dquote ++ ":1}".

(* ===================================================================== *)
(** ** stellarMainnetExample.ts: the SDK call sequences *)
(* ===================================================================== *)

(** Objects of the SDKs (servers, keypairs, accounts, assets, operations,
    builders, transactions, submission results) are opaque handles. *)
Definition handle := nat.

(** [RequestType] of the lending-pool SDK, as far as the module names it. *)
Inductive RequestType : Type :=
| SupplyCollateral
| WithdrawCollateral.

(** The calls the module makes into [stellar-sdk], [blend-sdk] and the
    console, indexed by what they return.  [TransactionBuilder_new] stands
    for the constructor with [{ fee: BASE_FEE, networkPassphrase:
    Networks.PUBLIC }]. *)
Inductive sdk_call : Type -> Type :=
| StrKey_isValidEd25519PublicKey (publicKey : string) : sdk_call bool
| Horizon_Server_new (url : string) : sdk_call handle
| SorobanRpc_Server_new (url : string) : sdk_call handle
| Keypair_fromSecret (secret : string) : sdk_call handle
| Keypair_publicKey (keypair : handle) : sdk_call string
| Server_loadAccount (server : handle) (publicKey : string) : sdk_call handle
| Asset_native : sdk_call handle
| Asset_new (code issuer : string) : sdk_call handle
| Operation_payment (destination : string) (asset : handle) (amount : string)
    : sdk_call handle
| Operation_changeTrust (asset : handle) (limit : option string) : sdk_call handle
| TransactionBuilder_new (account : handle) : sdk_call handle
| TransactionBuilder_addOperation (builder operation : handle) : sdk_call handle
| TransactionBuilder_setTimeout (builder : handle) (seconds : Z) : sdk_call handle
| TransactionBuilder_build (builder : handle) : sdk_call handle
| Transaction_sign (transaction keypair : handle) : sdk_call unit
| Server_submitTransaction (server transaction : handle) : sdk_call handle
| PoolContract_new (poolId : string) : sdk_call handle
| PoolContract_submit (pool : handle) (from spender to : string)
    (amount : Z) (request_type : RequestType) (address : string) : sdk_call string
| xdr_Operation_fromXDR (base64 : string) : sdk_call handle
| SorobanRpc_prepareTransaction (server transaction : handle) : sdk_call handle
| SorobanRpc_sendTransaction (server transaction : handle) : sdk_call handle
| SendTransactionResponse_hash (response : handle) : sdk_call string
| console_log (text : string) (shown : option handle) : sdk_call unit.

Inductive event : Type :=
| Event {T : Type} (c : sdk_call T).

Definition trace := list event.

(** What a call does: return, or throw a value. *)
Inductive reply (T : Type) : Type :=
| Returns (x : T)
| Raises (h : heap) (v : value).
Arguments Returns {T} x.
Arguments Raises {T} h v.

(** The world outside the module: the reply to a call, given the calls made
    before it. *)
Definition sdk := forall T : Type, trace -> sdk_call T -> reply T.

(** A computation of the module: it extends the trace of calls and returns
    or throws ([async] code is run in order, a rejected promise being a
    throw at its [await]). *)
Definition M (A : Type) : Type := trace -> result A * trace.

Definition ret {A} (a : A) : M A := fun tr => (Ok a, tr).

Definition mbind {A B} (m : M A) (k : A -> M B) : M B :=
  fun tr =>
    match m tr with
    | (Ok a, tr') => k a tr'
    | (Throw e, tr') => (Throw e, tr')
    end.

Notation "x <~ m ;; k" := (mbind m (fun x => k))
  (at level 61, m at next level, right associativity).

Definition call {T} (w : sdk) (c : sdk_call T) : M T :=
  fun tr =>
    match w T tr c with
    | Returns x => (Ok x, (tr ++ [Event c])%list)
    | Raises h v => (Throw (Thrown h v), (tr ++ [Event c])%list)
    end.

Definition lift {A} (r : result A) : M A := fun tr => (r, tr).

(** [throw new Error(message)] *)
Definition throw_new_Error {A} (message : string) : M A :=
  lift (Throw (Thrown [mkObject (ErrorInstance (PString message)) []] (VObject 0))).

(** The message the [Error] constructor makes of its argument: its
    conversion to a string, and the inherited empty message for
    [undefined]. *)
Definition Error_argument (h : heap) (v : value) : string :=
  match v with
  | VUndefined => ""
  | _ => ToString h v
  end.

Definition try_catch_M {A} (m : M A) (handler : exn -> M A) : M A :=
  fun tr =>
    match m tr with
    | (Ok a, tr') => (Ok a, tr')
    | (Throw e, tr') => handler e tr'
    end.

(** The value a [catch] clause binds: what was thrown, or the Error
    instance the engine made.  The text of an engine's message is its
    own (here the first line of V8's); no statement below depends on it. *)
Definition caught (e : exn) : heap * value :=
  match e with
  | Thrown h v => (h, v)
  | TypeError_circular =>
      ([mkObject (ErrorInstance (PString "Converting circular structure to JSON")) []],
       VObject 0)
  | TypeError_bigint =>
      ([mkObject (ErrorInstance (PString "Do not know how to serialize a BigInt")) []],
       VObject 0)
  | RangeError_stack =>
      ([mkObject (ErrorInstance (PString "Maximum call stack size exceeded")) []],
       VObject 0)
  end.

Definition HORIZON_MAINNET_URL : string := "https://horizon.stellar.org".
Definition SOROBAN_RPC_URL : string := "https://mainnet.sorobanrpc.com".

Definition submitTransactionWithContext (w : sdk) (server transaction : handle)
  : M handle :=
  try_catch_M
    (call w (Server_submitTransaction server transaction))
    (fun e =>
       let (h, error) := caught e in
       message <~ lift (formatStellarError h error "Transaction failed.") ;;
       throw_new_Error (Error_argument h message)).

Definition sendPaymentOnMainnet (w : sdk)
    (sourceSecret destinationPublicKey amount : string) : M unit :=
  server <~ call w (Horizon_Server_new HORIZON_MAINNET_URL) ;;
  sourceKeypair <~ call w (Keypair_fromSecret sourceSecret) ;;
  publicKey <~ call w (Keypair_publicKey sourceKeypair) ;;
  sourceAccountResponse <~ call w (Server_loadAccount server publicKey) ;;
  builder <~ call w (TransactionBuilder_new sourceAccountResponse) ;;
  asset <~ call w Asset_native ;;
  operation <~ call w (Operation_payment destinationPublicKey asset amount) ;;
  builder <~ call w (TransactionBuilder_addOperation builder operation) ;;
  builder <~ call w (TransactionBuilder_setTimeout builder 60) ;;
  transaction <~ call w (TransactionBuilder_build builder) ;;
  _ <~ call w (Transaction_sign transaction sourceKeypair) ;;
  result <~ submitTransactionWithContext w server transaction ;;
  call w (console_log "Transaction succeeded on mainnet:" (Some result)).

Definition sendAssetPaymentOnMainnet (w : sdk)
    (sourceSecret destinationPublicKey assetCode assetIssuerPublicKey amount : string)
  : M unit :=
  server <~ call w (Horizon_Server_new HORIZON_MAINNET_URL) ;;
  sourceKeypair <~ call w (Keypair_fromSecret sourceSecret) ;;
  publicKey <~ call w (Keypair_publicKey sourceKeypair) ;;
  sourceAccountResponse <~ call w (Server_loadAccount server publicKey) ;;
  asset <~ call w (Asset_new assetCode assetIssuerPublicKey) ;;
  builder <~ call w (TransactionBuilder_new sourceAccountResponse) ;;
  operation <~ call w (Operation_payment destinationPublicKey asset amount) ;;
  builder <~ call w (TransactionBuilder_addOperation builder operation) ;;
  builder <~ call w (TransactionBuilder_setTimeout builder 60) ;;
  transaction <~ call w (TransactionBuilder_build builder) ;;
  _ <~ call w (Transaction_sign transaction sourceKeypair) ;;
  result <~ submitTransactionWithContext w server transaction ;;
  call w (console_log ("Asset payment (" ++ assetCode ++ ") succeeded on mainnet:")
            (Some result)).

Definition issuer_error : string :=
  "Asset issuer must be a valid Stellar public key (G...).".

Definition createTrustlineOnMainnet (w : sdk)
    (accountSecret assetCode assetIssuerPublicKey : string) (limit : option string)
  : M unit :=
  valid <~ call w (StrKey_isValidEd25519PublicKey assetIssuerPublicKey) ;;
  if negb valid then throw_new_Error issuer_error
  else
    server <~ call w (Horizon_Server_new HORIZON_MAINNET_URL) ;;
    accountKeypair <~ call w (Keypair_fromSecret accountSecret) ;;
    publicKey <~ call w (Keypair_publicKey accountKeypair) ;;
    accountResponse <~ call w (Server_loadAccount server publicKey) ;;
    asset <~ call w (Asset_new assetCode assetIssuerPublicKey) ;;
    builder <~ call w (TransactionBuilder_new accountResponse) ;;
    operation <~ call w (Operation_changeTrust asset limit) ;;
    builder <~ call w (TransactionBuilder_addOperation builder operation) ;;
    builder <~ call w (TransactionBuilder_setTimeout builder 60) ;;
    transaction <~ call w (TransactionBuilder_build builder) ;;
    _ <~ call w (Transaction_sign transaction accountKeypair) ;;
    result <~ submitTransactionWithContext w server transaction ;;
    call w (console_log ("Trustline established/updated for " ++ assetCode ++ ":")
              (Some result)).

Definition InteractPoolOp (supply : bool) (w : sdk)
    (sourceSecret poolId asset : string) (amount : Z) : M unit :=
  horizonServer <~ call w (Horizon_Server_new HORIZON_MAINNET_URL) ;;
  sorobanServer <~ call w (SorobanRpc_Server_new SOROBAN_RPC_URL) ;;
  keypair <~ call w (Keypair_fromSecret sourceSecret) ;;
  publicKey <~ call w (Keypair_publicKey keypair) ;;
  account <~ call w (Server_loadAccount horizonServer publicKey) ;;
  poolContract <~ call w (PoolContract_new poolId) ;;
  from <~ call w (Keypair_publicKey keypair) ;;
  spender <~ call w (Keypair_publicKey keypair) ;;
  to <~ call w (Keypair_publicKey keypair) ;;
  supplyOpBase64 <~
    call w (PoolContract_submit poolContract from spender to amount
              (if supply then SupplyCollateral else WithdrawCollateral) asset) ;;
  supplyOperation <~ call w (xdr_Operation_fromXDR supplyOpBase64) ;;
  builder <~ call w (TransactionBuilder_new account) ;;
  builder <~ call w (TransactionBuilder_addOperation builder supplyOperation) ;;
  builder <~ call w (TransactionBuilder_setTimeout builder 60) ;;
  transaction <~ call w (TransactionBuilder_build builder) ;;
  transaction <~ call w (SorobanRpc_prepareTransaction sorobanServer transaction) ;;
  _ <~ call w (Transaction_sign transaction keypair) ;;
  result <~ call w (SorobanRpc_sendTransaction sorobanServer transaction) ;;
  _ <~ call w (console_log "Supply operation submitted:" (Some result)) ;;
  hash <~ call w (SendTransactionResponse_hash result) ;;
  call w (console_log ("TxHash " ++ hash) None).

Definition SupplyOp := InteractPoolOp true.
Definition WithdrawalOp := InteractPoolOp false.

(** Is the call the validation of a public key? *)
Definition is_validation (e : event) : bool :=
  match e with
  | Event (StrKey_isValidEd25519PublicKey _) => true
  | _ => false
  end.

(** Does the call load an account, build, sign or submit a transaction? *)
Definition touches_ledger (e : event) : bool :=
  match e with
  | Event (Server_loadAccount _ _)
  | Event (TransactionBuilder_new _)
  | Event (TransactionBuilder_addOperation _ _)
  | Event (TransactionBuilder_setTimeout _ _)
  | Event (TransactionBuilder_build _)
  | Event (Transaction_sign _ _)
  | Event (Server_submitTransaction _ _)
  | Event (SorobanRpc_prepareTransaction _ _)
  | Event (SorobanRpc_sendTransaction _ _) => true
  | _ => false
  end.

(** A computation that adds no validation of a public key to the trace. *)
Definition no_validation {A} (m : M A) : Prop :=
  forall tr : trace,
    filter is_validation (snd (m tr)) = filter is_validation tr.

(** A world in which every call succeeds and [valid] decides the keys. *)
Definition calm_world (valid : string -> bool) : sdk :=
  fun T _ c =>
    match c in sdk_call T return reply T with
    | StrKey_isValidEd25519PublicKey k => Returns (valid k)
    | Keypair_publicKey _ => Returns "GSOURCE"
    | PoolContract_submit _ _ _ _ _ _ _ => Returns "AAAA"
    | SendTransactionResponse_hash _ => Returns "cafe"
    | Transaction_sign _ _ => Returns tt
    | console_log _ _ => Returns tt
    | _ => Returns 0
    end.

(** *** Reading a trace *)

(** [new Error("boom")] *)
Definition boom_heap : heap := [ mkObject (ErrorInstance (PString "boom")) [] ].

(** Is the call a submission to the network ([submitTransaction] of
    Horizon or [sendTransaction] of the Soroban RPC)? *)
Definition is_submission (e : event) : bool :=
  match e with
  | Event (Server_submitTransaction _ _)
  | Event (SorobanRpc_sendTransaction _ _) => true
  | _ => false
  end.

Definition submissions (tr : trace) : nat := List.length (filter is_submission tr).

(** Every transaction submitted in [tr] is one [sign] was called on
    earlier in [tr] ([signed]: those signed before [tr]). *)
Fixpoint submits_only_signed (signed : list handle) (tr : trace) : bool :=
  match tr with
  | [] => true
  | Event (Transaction_sign transaction _) :: rest =>
      submits_only_signed (transaction :: signed) rest
  | Event (Server_submitTransaction _ transaction) :: rest =>
      existsb (Nat.eqb transaction) signed && submits_only_signed signed rest
  | Event (SorobanRpc_sendTransaction _ transaction) :: rest =>
      existsb (Nat.eqb transaction) signed && submits_only_signed signed rest
  | _ :: rest => submits_only_signed signed rest
  end.

(** No [sign] in [tr] comes before a [prepareTransaction] ([prepared]: one
    came before [tr]). *)
Fixpoint signs_after_prepare (prepared : bool) (tr : trace) : bool :=
  match tr with
  | [] => true
  | Event (SorobanRpc_prepareTransaction _ _) :: rest => signs_after_prepare true rest
  | Event (Transaction_sign _ _) :: rest => prepared && signs_after_prepare prepared rest
  | _ :: rest => signs_after_prepare prepared rest
  end.

Definition RequestType_eqb (a b : RequestType) : bool :=
  match a, b with
  | SupplyCollateral, SupplyCollateral
  | WithdrawCollateral, WithdrawCollateral => true
  | _, _ => false
  end.

(** A request to the pool, if the call is one, is of type [t] for the
    amount [n] of [asset]. *)
Definition requests_only (t : RequestType) (n : Z) (asset : string) (e : event) : bool :=
  match e with
  | Event (PoolContract_submit _ _ _ _ amount request_type address) =>
      RequestType_eqb request_type t && (amount =? n)%Z && String.eqb address asset
  | _ => true
  end.

(** A world in which Horizon turns the submission down with the error
    [v] of the heap [h], and every other call succeeds. *)
Definition rejecting_world (h : heap) (v : value) : sdk :=
  fun T tr c =>
    match c in sdk_call T return reply T with
    | Server_submitTransaction _ _ => Raises h v
    | other => calm_world (fun _ => true) _ tr other
    end.

(** A world in which the Soroban RPC turns the transaction down. *)
Definition soroban_rejecting_world (h : heap) (v : value) : sdk :=
  fun T tr c =>
    match c in sdk_call T return reply T with
    | SorobanRpc_sendTransaction _ _ => Raises h v
    | other => calm_world (fun _ => true) _ tr other
    end.

End StellarMainnetExample.

(* ===================================================================== *)
(** ** App.tsx: the operation-in-flight gate *)
(* ===================================================================== *)

Module App.
Import JS.

(** The tags of [operationInFlight]. *)
Inductive operation : Type :=
| native
| asset
| trust
| supply
| withdraw.

Definition operation_eqb (a b : operation) : bool :=
  match a, b with
  | native, native | asset, asset | trust, trust
  | supply, supply | withdraw, withdraw => true
  | _, _ => false
  end.

(** The part of the component's state the gate reads, as of the last
    render, and the SDK calls whose promise has not settled yet. *)
Record state : Type := mkState {
  wallet : bool;                          (* [wallet] is not null *)
  operationInFlight : option operation;
  pending : list operation
}.

Definition initial : state := mkState false None [].

(** [!stellarSecret || !wallet || operationInFlight !== null] *)
Definition operationsDisabled (stellarSecret : string) (s : state) : bool :=
  negb (nonempty stellarSecret) || negb (wallet s)
  || match operationInFlight s with
     | Some _ => true
     | None => false
     end.

(** The [disabled] attribute of the button of [op]:
    [operationsDisabled || operationInFlight === op]. *)
Definition button_disabled (stellarSecret : string) (s : state) (op : operation)
  : bool :=
  operationsDisabled stellarSecret s
  || match operationInFlight s with
     | Some o => operation_eqb o op
     | None => false
     end.

(** The click handler of [op] up to its first [await]: it gives up on a
    missing secret or an incomplete form ([form_ok]: the required fields are
    not blank and, for the pool, the amount parses), else raises the flag
    and calls the SDK. *)
Definition handle_click (stellarSecret : string) (op : operation) (form_ok : bool)
    (s : state) : state :=
  if negb (nonempty stellarSecret) then s
  else if negb form_ok then s
  else mkState (wallet s) (Some op) (op :: pending s).

Fixpoint remove_first (op : operation) (ops : list operation) : list operation :=
  match ops with
  | [] => []
  | o :: rest => if operation_eqb o op then rest else o :: remove_first op rest
  end.

(** The handler of [op] after its [await]: the [finally] clears the flag. *)
Definition handle_settled (op : operation) (s : state) : state :=
  mkState (wallet s) None (remove_first op (pending s)).

Inductive ui_event : Type :=
| Click (op : operation) (form_ok : bool)
| Settled (op : operation)
| SetWallet (present : bool).

(** One step of the component.  A disabled button dispatches no click; only
    a pending call settles. *)
Definition step (stellarSecret : string) (s : state) (e : ui_event) : option state :=
  match e with
  | Click op form_ok =>
      if button_disabled stellarSecret s op then None
      else Some (handle_click stellarSecret op form_ok s)
  | Settled op =>
      if existsb (operation_eqb op) (pending s)
      then Some (handle_settled op s)
      else None
  | SetWallet present => Some (mkState present (operationInFlight s) (pending s))
  end.

Inductive reachable (stellarSecret : string) : state -> Prop :=
| reachable_initial : reachable stellarSecret initial
| reachable_step s e s' :
    reachable stellarSecret s ->
    step stellarSecret s e = Some s' ->
    reachable stellarSecret s'.

(** The flag names the pending call, and there is no other. *)
Definition gate_invariant (s : state) : Prop :=
  pending s = match operationInFlight s with
              | Some op => [op]
              | None => []
              end.

(** Running a list of events from a state. *)
Fixpoint run (stellarSecret : string) (s : state) (es : list ui_event) : option state :=
  match es with
  | [] => Some s
  | e :: rest =>
      match step stellarSecret s e with
      | Some s' => run stellarSecret s' rest
      | None => None
      end
  end.

End App.

(* ===================================================================== *)
(** ** App.tsx: the handlers of the payment and trustline forms *)
(* ===================================================================== *)

Module Handlers.
Import JS StellarMainnetExample App.

(** What the component shows and the gate, with what [console.error]
    was given. *)
Record ui : Type := mkUi {
  error : option value;                     (* what [setError] was given *)
  info : option string;
  inFlight : option operation;              (* [operationInFlight] *)
  console_errors : list (string * exn)
}.

Definition setError (e : option value) (u : ui) : ui :=
  mkUi e (info u) (inFlight u) (console_errors u).

Definition setInfo (i : option string) (u : ui) : ui :=
  mkUi (error u) i (inFlight u) (console_errors u).

Definition setOperationInFlight (o : option operation) (u : ui) : ui :=
  mkUi (error u) (info u) o (console_errors u).

Definition console_error (label : string) (e : exn) (u : ui) : ui :=
  mkUi (error u) (info u) (inFlight u) (console_errors u ++ [(label, e)])%list.

(** A handler run to its end: the state it leaves, the SDK calls it made,
    and the exception it did not catch, if any. *)
Record outcome : Type := mkOutcome {
  shown : ui;
  calls : trace;
  uncaught : option exn
}.

Definition returned (u : ui) : outcome := mkOutcome u [] None.

Definition missing_secret : string :=
  "Missing VITE_STELLAR_SECRET_KEY. Update your .env.local file.".

(** The [try { await run; setInfo(submitted) } catch (err) {
    console.error(label, err); setInfo(null);
    setError(formatStellarError(err, fallback)) } finally {
    setOperationInFlight(null) }] that ends each handler. *)
Definition attempt (run : M unit) (submitted label fallback : string) (u : ui)
  : outcome :=
  match run [] with
  | (Ok _, tr) =>
      mkOutcome (setOperationInFlight None (setInfo (Some submitted) u)) tr None
  | (Throw e, tr) =>
      let (h, err) := caught e in
      let u := setInfo None (console_error label e u) in
      match formatStellarError h err fallback with
      | Ok text => mkOutcome (setOperationInFlight None (setError (Some text) u)) tr None
      | Throw e' => mkOutcome (setOperationInFlight None u) tr (Some e')
      end
  end.

Definition native_required : string :=
  "Destination and amount are required for XLM payments.".

Definition handleSendNative (w : sdk) (stellarSecret nativeDestination nativeAmount : string)
    (u : ui) : outcome :=
  if negb (nonempty stellarSecret)
  then returned (setError (Some (VString missing_secret)) u)
  else if negb (nonempty (trim nativeDestination)) || negb (nonempty (trim nativeAmount))
  then returned (setError (Some (VString native_required)) u)
  else
    let u :=
      setOperationInFlight (Some native)
        (setInfo (Some "Submitting XLM payment to Horizon…") (setError None u)) in
    attempt
      (sendPaymentOnMainnet w stellarSecret (trim nativeDestination) (trim nativeAmount))
      "XLM payment submitted. Check Horizon for confirmation."
      "Failed to send XLM payment"
      "Unable to send XLM payment. Inspect console for details."
      u.

Definition asset_required : string :=
  "Destination, asset code, issuer, and amount are required for asset payments.".

Definition handleSendAsset (w : sdk)
    (stellarSecret assetDestination assetCode assetIssuer assetAmount : string)
    (u : ui) : outcome :=
  if negb (nonempty stellarSecret)
  then returned (setError (Some (VString missing_secret)) u)
  else if negb (nonempty (trim assetDestination)) || negb (nonempty (trim assetCode))
          || negb (nonempty (trim assetIssuer)) || negb (nonempty (trim assetAmount))
  then returned (setError (Some (VString asset_required)) u)
  else
    let u :=
      setOperationInFlight (Some asset)
        (setInfo (Some ("Submitting " ++ trim assetCode ++ " payment…"))
           (setError None u)) in
    attempt
      (sendAssetPaymentOnMainnet w stellarSecret (trim assetDestination)
         (trim assetCode) (trim assetIssuer) (trim assetAmount))
      (trim assetCode ++ " payment submitted. Check Horizon for confirmation.")
      "Failed to send asset payment"
      "Unable to send asset payment. Inspect console for details."
      u.

Definition trust_required : string :=
  "Asset code and issuer are required to create a trustline.".

(** [trustLimit.trim() || undefined] *)
Definition limit_or_undefined (trustLimit : string) : option string :=
  if nonempty (trim trustLimit) then Some (trim trustLimit) else None.

Definition handleCreateTrustline (w : sdk)
    (stellarSecret trustAssetCode trustAssetIssuer trustLimit : string)
    (u : ui) : outcome :=
  if negb (nonempty stellarSecret)
  then returned (setError (Some (VString missing_secret)) u)
  else if negb (nonempty (trim trustAssetCode)) || negb (nonempty (trim trustAssetIssuer))
  then returned (setError (Some (VString trust_required)) u)
  else
    let u :=
      setOperationInFlight (Some trust)
        (setInfo (Some ("Creating trustline for " ++ trim trustAssetCode ++ "…"))
           (setError None u)) in
    attempt
      (createTrustlineOnMainnet w stellarSecret (trim trustAssetCode)
         (trim trustAssetIssuer) (limit_or_undefined trustLimit))
      ("Trustline for " ++ trim trustAssetCode
       ++ " submitted. Check Horizon for confirmation.")
      "Failed to create trustline"
      "Unable to create trustline. Inspect console for details."
      u.

(** The state of the component before anything was shown. *)
Definition blank_ui : ui := mkUi None None None [].

(** The SDK is given no empty secret, destination, amount, asset code or
    issuer by the call. *)
Definition no_blank_argument (e : event) : bool :=
  match e with
  | Event (Keypair_fromSecret secret) => nonempty secret
  | Event (Operation_payment destination _ amount) =>
      nonempty destination && nonempty amount
  | Event (Asset_new code issuer) => nonempty code && nonempty issuer
  | Event (StrKey_isValidEd25519PublicKey key) => nonempty key
  | Event (Operation_changeTrust _ (Some limit)) => nonempty limit
  | _ => true
  end.


End Handlers.

(* ===================================================================== *)
(** ** Facts about the JavaScript fragment *)
(* ===================================================================== *)

Section JSFacts.
Import JS.

Lemma nonempty_true_iff (s : string) : nonempty s = true <-> s <> "".
Proof.
  unfold nonempty. destruct (String.eqb_spec s ""); simpl; intuition congruence.
Qed.

Lemma nonempty_append_l (s t : string) : nonempty s = true -> nonempty (s ++ t) = true.
Proof. destruct s; simpl; [discriminate | reflexivity]. Qed.

Lemma Z_to_string_nonempty (n : Z) : nonempty (Z_to_string n) = true.
Proof.
  unfold Z_to_string, NilZero.string_of_int.
  destruct (Z.to_int n) as [d | d]; [| reflexivity].
  unfold NilZero.string_of_uint. destruct d; reflexivity.
Qed.

(** A truthy value never prints as the empty string. *)
Lemma ToString_truthy (h : heap) (v : value) :
  truthy v = true -> nonempty (ToString h v) = true.
Proof.
  destruct v as [ | | [|] | n | n | s | l]; simpl; try discriminate; auto.
  - intros _. apply Z_to_string_nonempty.
  - intros _. apply Z_to_string_nonempty.
  - intros _. destruct (cls (obj_at h l)) as [|m]; [reflexivity|].
    unfold Error_toString. cbv zeta.
    match goal with
    | |- nonempty (if nonempty ?msg then _ else _) = true =>
        destruct (nonempty msg); reflexivity
    end.
Qed.

Lemma join_element_truthy (h : heap) (v : value) :
  truthy v = true -> join_element h v = ToString h v.
Proof. destruct v; simpl; try discriminate; reflexivity. Qed.

Lemma filter_truthy_all (xs : list value) : Forall (fun v => truthy v = true) (filter truthy xs).
Proof.
  induction xs as [|x xs IH]; simpl; [constructor|].
  destruct (truthy x) eqn:E; [constructor; assumption | assumption].
Qed.

(** Joining truthy values, at least one of them, gives a non-empty string. *)
Lemma join_truthy_nonempty (h : heap) (sep : string) (xs : list value) :
  Forall (fun v => truthy v = true) xs -> xs <> [] ->
  nonempty (join h sep xs) = true.
Proof.
  intros Hall Hne. destruct xs as [|x xs]; [congruence|].
  inversion Hall as [|? ? Hx _]; subst.
  unfold join. simpl. rewrite (join_element_truthy h x Hx).
  destruct (map (join_element h) xs).
  - apply ToString_truthy, Hx.
  - apply nonempty_append_l, ToString_truthy, Hx.
Qed.

Lemma length_pos_not_nil {A} (xs : list A) : (0 <? List.length xs)%nat = true <-> xs <> [].
Proof. destruct xs; cbn; split; intros; try congruence; reflexivity. Qed.

Lemma existsb_eqb_false (l : loc) (stack : list loc) :
  existsb (Nat.eqb l) stack = false -> ~ In l stack.
Proof.
  intros Hex Hin.
  assert (existsb (Nat.eqb l) stack = true) as Habs.
  { apply existsb_exists. exists l. split; [assumption | apply Nat.eqb_refl]. }
  congruence.
Qed.

(** Distinct addresses of a heap are no more than its objects. *)
Lemma distinct_locs_bounded (n : nat) (stack : list loc) :
  NoDup stack -> Forall (fun l => l < n) stack -> List.length stack <= n.
Proof.
  intros Hnd Hall.
  rewrite <- (length_seq n 0).
  apply NoDup_incl_length; [assumption|].
  intros l Hl. apply in_seq. rewrite Forall_forall in Hall.
  specialize (Hall l Hl). lia.
Qed.

(** The serializer does not run out of fuel while the fuel left exceeds
    the objects of the heap that are not on the stack. *)
Lemma serialize_no_overflow (h : heap) :
  forall (fuel : nat) (stack : list loc) (v : value),
    NoDup stack ->
    Forall (fun l => l < List.length h) stack ->
    List.length h < fuel + List.length stack ->
    serialize fuel h stack v <> Throw RangeError_stack.
Proof.
  induction fuel as [|fuel IH]; intros stack v Hnd Hall Hfuel.
  - pose proof (distinct_locs_bounded _ _ Hnd Hall).
    simpl in Hfuel. lia.
  - destruct v as [ | | [|] | n | n | s | l]; simpl; try discriminate.
    destruct (existsb (Nat.eqb l) stack) eqn:Hex; [discriminate|].
    apply existsb_eqb_false in Hex.
    match goal with
    | |- match ?members ?ps with _ => _ end <> _ =>
        assert (members ps <> Throw RangeError_stack) as Hm;
        [| destruct (members ps) as [ms|e]; [discriminate | congruence] ]
    end.
    destruct (Nat.lt_ge_cases l (List.length h)) as [Hl | Hl].
    + generalize (props (obj_at h l)) as ps.
      induction ps as [|[k x] rest IHps]; [discriminate|].
      assert (serialize fuel h (l :: stack) x <> Throw RangeError_stack) as Hx.
      { apply IH.
        - constructor; assumption.
        - constructor; assumption.
        - simpl. lia. }
      destruct (serialize fuel h (l :: stack) x) as [[sx|]|e] eqn:Ex.
      * match goal with
        | |- match ?m with _ => _ end <> _ =>
            destruct m as [ms|e']; [discriminate | exact IHps]
        end.
      * exact IHps.
      * congruence.
    + unfold obj_at. rewrite nth_overflow by assumption. discriminate.
Qed.

(** [JSON.stringify] fails by a TypeError only: its fuel is enough. *)
Lemma JSON_stringify_no_overflow (h : heap) (v : value) :
  JSON_stringify h v <> Throw RangeError_stack.
Proof.
  unfold JSON_stringify.
  pose proof (serialize_no_overflow h (S (List.length h)) [] v
                (NoDup_nil _) (Forall_nil _)) as H.
  destruct (serialize (S (List.length h)) h [] v) as [r|e]; simpl.
  - discriminate.
  - assert (Datatypes.length h < S (Datatypes.length h) + 0) as Hlt by lia.
    specialize (H Hlt). congruence.
Qed.

End JSFacts.

(* ===================================================================== *)
(** ** The error normalizer *)
(* ===================================================================== *)

Section Normalizer.
Import JS StellarMainnetExample.

Lemma bind_Ok_inv {A B} (m : result A) (k : A -> result B) (b : B) :
  bind m k = Ok b -> exists a, m = Ok a /\ k a = Ok b.
Proof. destruct m as [a|e]; simpl; [eauto | discriminate]. Qed.

(** The fragment made of the truthy parts: not empty. *)
Lemma parts_fragment_nonempty (h : heap) (xs : list value) (otherwise : string) :
  nonempty otherwise = true ->
  nonempty (if (0 <? List.length (filter truthy xs))%nat
            then join h part_separator (filter truthy xs)
            else otherwise) = true.
Proof.
  intros Ho. destruct (0 <? List.length (filter truthy xs))%nat eqn:E; [|assumption].
  apply join_truthy_nonempty; [apply filter_truthy_all|].
  apply length_pos_not_nil, E.
Qed.

(** A fragment of [parseAxiosError] is never the empty string. *)
Lemma parseAxiosError_nonempty (h : heap) (error : value) (a : string) :
  parseAxiosError h error = Ok (Some a) -> nonempty a = true.
Proof.
  unfold parseAxiosError. destruct error as [ | | | | | | l]; try discriminate.
  destruct (has_property h l "isAxiosError" && truthy (get_property h l "isAxiosError"));
    [|discriminate].
  intros H. apply bind_Ok_inv in H as (part & _ & H). cbv beta zeta in H.
  match type of H with
  | Ok (Some ?fragment) = _ => assert (a = fragment) as -> by congruence
  end.
  apply parts_fragment_nonempty. reflexivity.
Qed.

(** [parseHorizonError] returns, whatever it is given. *)
Lemma parseHorizonError_returns (h : heap) (error : value) :
  exists r, parseHorizonError h error = Ok r.
Proof.
  unfold parseHorizonError. destruct error as [ | | | | | | l]; eauto.
  destruct (has_property h l "response" && has_property h l "status"); eauto.
  destruct (parseHorizonError_try h l) as [r|e]; simpl; eauto.
Qed.

(** A fragment of [parseHorizonError] is never the empty string. *)
Lemma parseHorizonError_nonempty (h : heap) (error : value) (b : string) :
  parseHorizonError h error = Ok (Some b) -> nonempty b = true.
Proof.
  unfold parseHorizonError. destruct error as [ | | | | | | l]; try discriminate.
  destruct (has_property h l "response" && has_property h l "status"); [|discriminate].
  destruct (parseHorizonError_try h l) as [r|e] eqn:E; simpl; [|discriminate].
  intros H. injection H as ->.
  unfold parseHorizonError_try in E.
  apply bind_Ok_inv in E as (part & _ & E). cbv beta zeta in E.
  match type of E with
  | (if (0 <? List.length (filter truthy ?xs))%nat then _ else _) = _ =>
      pose proof (parts_fragment_nonempty h xs "-" eq_refl) as Hp;
      destruct (0 <? List.length (filter truthy xs))%nat; [|discriminate]
  end.
  match type of E with
  | Ok (Some ?fragment) = _ => assert (b = fragment) as -> by congruence
  end.
  exact Hp.
Qed.

Lemma truthy_nullable_Some (s : string) : truthy (nullable (Some s)) = nonempty s.
Proof. reflexivity. Qed.

(** The result of [formatStellarError] once both parsers have returned. *)
Lemma formatStellarError_unfold (h : heap) (error : value) (fb : string)
    (a b : option string) :
  parseAxiosError h error = Ok a ->
  parseHorizonError h error = Ok b ->
  formatStellarError h error fb =
    if truthy (nullable a) || truthy (nullable b)
    then Ok (VString (join h " | " (filter truthy [nullable a; nullable b])))
    else match error_message h error with
         | Some m => Ok m
         | None =>
             match string_message h error with
             | Some s => Ok (VString s)
             | None => Ok (VString fb)
             end
         end.
Proof. intros Ha Hb. unfold formatStellarError. rewrite Ha, Hb. reflexivity. Qed.

End Normalizer.

Section NormalizerClaims.
Import JS StellarMainnetExample.

(** C1 (the code departs from it): [formatStellarError] is to return a
    string and never raise.  On an Axios-marked error whose [response.data]
    is cyclic, [parseAxiosError] calls [JSON.stringify] outside any [try],
    and the TypeError leaves [formatStellarError], whatever the fallback. *)
Theorem formatStellarError_raises_on_cyclic_axios_data (fallback : string) :
  formatStellarError cyclic_axios_heap (VObject 0) fallback = Throw TypeError_circular.
Proof. reflexivity. Qed.

(** Without the Axios marker [formatStellarError] does return. *)
Lemma formatStellarError_returns_without_marker (h : heap) (error : value)
    (fallback : string) :
  parseAxiosError h error = Ok None ->
  exists v, formatStellarError h error fallback = Ok v.
Proof.
  intros Ha. destruct (parseHorizonError_returns h error) as [b Hb].
  rewrite (formatStellarError_unfold h error fallback None b Ha Hb).
  destruct (truthy (nullable None) || truthy (nullable b)); [eauto|].
  destruct (error_message h error); [eauto|].
  destruct (string_message h error); eauto.
Qed.

(** [formatStellarError] raises only what the serialization of
    [response.data] in [parseAxiosError] raises. *)
Lemma formatStellarError_raises_only_from_data (h : heap) (error : value)
    (fallback : string) (e : exn) :
  formatStellarError h error fallback = Throw e ->
  exists l, error = VObject l
    /\ JSON_stringify h (optional_get h (get_property h l "response") "data") = Throw e.
Proof.
  intros Hthrow.
  destruct (parseAxiosError h error) as [a|e'] eqn:Ha.
  - destruct (formatStellarError_returns_without_marker h error fallback) as [s Hs].
    + destruct a as [a|]; [|exact Ha]. exfalso.
      destruct (parseHorizonError_returns h error) as [b Hb].
      rewrite (formatStellarError_unfold _ _ _ _ _ Ha Hb) in Hthrow.
      rewrite truthy_nullable_Some, (parseAxiosError_nonempty _ _ _ Ha) in Hthrow.
      discriminate.
    + congruence.
  - unfold formatStellarError in Hthrow. rewrite Ha in Hthrow. simpl in Hthrow.
    injection Hthrow as <-.
    unfold parseAxiosError in Ha. destruct error as [ | | | | | | l]; try discriminate.
    exists l. split; [reflexivity|].
    destruct (has_property h l "isAxiosError" && truthy (get_property h l "isAxiosError"));
      [|discriminate].
    cbv zeta in Ha.
    destruct (truthy (optional_get h (get_property h l "response") "data"));
      [|discriminate].
    destruct (JSON_stringify h (optional_get h (get_property h l "response") "data"));
      [discriminate|].
    simpl in Ha. congruence.
Qed.

(** C2, as stated, fails: an object with [response.status = 400],
    [response.data.title = "Bad Request"] and [response.data.detail =
    "op_underfunded"] and nothing else is not given the Horizon text. *)
Lemma ledger_shape_without_own_status :
  formatStellarError ledger_heap (VObject 0) "Transaction failed."
  <> Ok (VString "Horizon HTTP 400 – Bad Request – op_underfunded").
Proof. discriminate. Qed.

(** What it is given is the fallback. *)
Lemma ledger_shape_without_own_status_fallback (fallback : string) :
  formatStellarError ledger_heap (VObject 0) fallback = Ok (VString fallback).
Proof. reflexivity. Qed.

(** C2 (amended): an error that is not Axios-marked, has a [status]
    property of its own beside [response], and whose [response] has
    [status = 400] and a [data] with [title = "Bad Request"],
    [detail = "op_underfunded"] and no extras, is formatted as
    ["Horizon HTTP 400 – Bad Request – op_underfunded"]. *)
Theorem formatStellarError_ledger_shape (h : heap) (l r d : loc) (fallback : string) :
  parseAxiosError h (VObject l) = Ok None ->
  has_property h l "status" = true ->
  get_property h l "response" = VObject r ->
  get_property h r "status" = VNumber 400 ->
  get_property h r "data" = VObject d ->
  get_property h d "title" = VString "Bad Request" ->
  get_property h d "detail" = VString "op_underfunded" ->
  truthy (get_property h d "extras") = false ->
  formatStellarError h (VObject l) fallback
  = Ok (VString "Horizon HTTP 400 – Bad Request – op_underfunded").
Proof.
  intros Ha Hstatus Hresp Hrs Hrd Htitle Hdetail Hextras.
  assert (has_property h l "response" = true) as Hhas.
  { unfold has_property. unfold get_property in Hresp.
    destruct (lookup_property (obj_at h l) "response"); [reflexivity | discriminate]. }
  assert (parseHorizonError h (VObject l)
          = Ok (Some "Horizon HTTP 400 – Bad Request – op_underfunded")) as Hb.
  { unfold parseHorizonError. rewrite Hhas, Hstatus. simpl andb. cbv iota.
    unfold parseHorizonError_try. rewrite Hresp. simpl optional_get.
    rewrite Hrs, Hrd. simpl optional_get. rewrite Htitle, Hdetail, Hextras.
    reflexivity. }
  rewrite (formatStellarError_unfold _ _ _ _ _ Ha Hb). reflexivity.
Qed.

Lemma formatStellarError_ledger_shape_witness :
  formatStellarError ledger_heap_with_status (VObject 0) "Transaction failed."
  = Ok (VString "Horizon HTTP 400 – Bad Request – op_underfunded").
Proof.
  apply (formatStellarError_ledger_shape ledger_heap_with_status 0 1 2);
    reflexivity.
Defined.

(** C3, as stated, fails: for [{ isAxiosError: true }], where [status],
    [statusText], [message] and [data] are all absent, the result is not
    the fixed string. *)
Lemma bare_axios_error_not_fixed_string :
  formatStellarError bare_axios_heap (VObject 0) "Transaction failed."
  <> Ok (VString "Network request failed (Axios).").
Proof. discriminate. Qed.

(** It is the default the code gives to an absent [message]. *)
Lemma bare_axios_error_request_failed (fallback : string) :
  formatStellarError bare_axios_heap (VObject 0) fallback
  = Ok (VString "Request failed").
Proof. reflexivity. Qed.

(** Without a truthy [status] or [data] there is no Horizon fragment. *)
Lemma parseHorizonError_needs_status_or_data (h : heap) (l : loc) :
  truthy (optional_get h (get_property h l "response") "status") = false ->
  truthy (optional_get h (get_property h l "response") "data") = false ->
  parseHorizonError h (VObject l) = Ok None.
Proof.
  intros Hs Hd. unfold parseHorizonError.
  destruct (has_property h l "response" && has_property h l "status"); [|reflexivity].
  unfold parseHorizonError_try. rewrite Hs.
  destruct (optional_get h (get_property h l "response") "data");
    try discriminate; reflexivity.
Qed.

(** C3 (amended): for an Axios-marked error with no truthy [status],
    [statusText] or [data], the Axios fragment, which [formatStellarError]
    returns, is ["Request failed"] when [message] is absent (undefined or
    null), the fixed string ["Network request failed (Axios)."] when
    [message] is present and falsy (the empty string), and the message
    itself otherwise. *)
Theorem axios_fragment_without_response_parts (h : heap) (l : loc) (fallback : string) :
  has_property h l "isAxiosError" = true ->
  truthy (get_property h l "isAxiosError") = true ->
  truthy (optional_get h (get_property h l "response") "status") = false ->
  truthy (optional_get h (get_property h l "response") "statusText") = false ->
  truthy (optional_get h (get_property h l "response") "data") = false ->
  let fragment :=
    match get_property h l "message" with
    | VUndefined | VNull => "Request failed"
    | message =>
        if truthy message then ToString h message
        else "Network request failed (Axios)."
    end in
  parseAxiosError h (VObject l) = Ok (Some fragment)
  /\ formatStellarError h (VObject l) fallback = Ok (VString fragment).
Proof.
  intros Hin Hmark Hs Ht Hd fragment.
  assert (parseAxiosError h (VObject l) = Ok (Some fragment)) as Ha.
  { unfold parseAxiosError. rewrite Hin, Hmark. simpl andb. cbv iota zeta.
    rewrite Hs, Hd. unfold or_null. rewrite Ht. cbv iota. simpl bind.
    subst fragment.
    destruct (get_property h l "message") as [ | | b | n | n | s | o];
      try reflexivity.
    all: match goal with
         | |- context [nullish_coalesce ?m ?d] =>
             change (nullish_coalesce m d) with m; cbv iota zeta;
             destruct (truthy m) eqn:Et; cbv iota; rewrite ?Et;
             [ cbn [List.length Nat.ltb Nat.leb]; unfold join;
               cbn [map String.concat]; rewrite (join_element_truthy h m Et)
             | ]; reflexivity
         end. }
  split; [exact Ha|].
  rewrite (formatStellarError_unfold _ _ _ _ _ Ha
             (parseHorizonError_needs_status_or_data h l Hs Hd)).
  pose proof (parseAxiosError_nonempty _ _ _ Ha) as Hne.
  simpl. rewrite Hne. simpl. reflexivity.
Qed.

Lemma axios_fragment_without_response_parts_witness :
  (parseAxiosError bare_axios_heap (VObject 0) = Ok (Some "Request failed")
   /\ formatStellarError bare_axios_heap (VObject 0) "Transaction failed."
      = Ok (VString "Request failed"))
  /\ (parseAxiosError silent_axios_heap (VObject 0)
      = Ok (Some "Network request failed (Axios).")
      /\ formatStellarError silent_axios_heap (VObject 0) "Transaction failed."
         = Ok (VString "Network request failed (Axios).")).
Proof.
  split.
  - apply (axios_fragment_without_response_parts bare_axios_heap 0); reflexivity.
  - apply (axios_fragment_without_response_parts silent_axios_heap 0); reflexivity.
Defined.

(** [JSON.stringify] of an object whose only property is [x: 1]. *)
Lemma JSON_stringify_x_1 (h : heap) (d : loc) :
  props (obj_at h d) = [("x", VNumber 1)] ->
  JSON_stringify h (VObject d) = Ok (VString json_x_1).
Proof.
  intros Hp. unfold JSON_stringify. cbn [serialize existsb]. rewrite Hp.
  destruct (List.length h); reflexivity.
Qed.

(** C4, as stated, fails: the error with [isAxiosError], [message =
    "Request failed"], [response.status = 404], [response.statusText =
    "Not Found"] and [response.data = { x: 1 }] that also has the [status]
    of its own an AxiosError carries is not formatted as
    [HTTP 404 – Not Found – Request failed – Response: {"x":1}]. *)
Lemma axios_not_found_with_own_status :
  formatStellarError not_found_own_status_heap (VObject 0) "Transaction failed."
  <> Ok (VString ("HTTP 404 – Not Found – Request failed – Response: " ++ json_x_1)).
Proof. discriminate. Qed.

(** It has the ledger-API shape too, and gets both fragments. *)
Lemma axios_not_found_with_own_status_result (fallback : string) :
  formatStellarError not_found_own_status_heap (VObject 0) fallback
  = Ok (VString ("HTTP 404 – Not Found – Request failed – Response: " ++ json_x_1
                 ++ " | Horizon HTTP 404")).
Proof. reflexivity. Qed.

(** An object whose only property is [x: 1] has no other property the
    parsers ask for. *)
Lemma get_property_beside_x (h : heap) (d : loc) (k : string) :
  props (obj_at h d) = [("x", VNumber 1)] ->
  String.eqb k "x" = false ->
  String.eqb k "message" = false ->
  String.eqb k "name" = false ->
  get_property h d k = VUndefined.
Proof.
  intros Hd Hx Hm Hn. unfold get_property, lookup_property. rewrite Hd.
  destruct (cls (obj_at h d)); simpl; rewrite ?Hm, ?Hn, Hx; reflexivity.
Qed.

(** C4 (amended): an Axios-marked error with [message = "Request failed"]
    and a [response] with [status = 404], [statusText = "Not Found"] and
    [data = { x: 1 }] is formatted as
    [HTTP 404 – Not Found – Request failed – Response: {"x":1}] when it has
    no [status] property of its own; when it has one, whatever its value,
    it is of the ledger-API shape as well and the result is that text
    followed by [" | Horizon HTTP 404"]. *)
Theorem formatStellarError_axios_not_found (h : heap) (l r d : loc) (fallback : string) :
  has_property h l "isAxiosError" = true ->
  truthy (get_property h l "isAxiosError") = true ->
  get_property h l "message" = VString "Request failed" ->
  get_property h l "response" = VObject r ->
  get_property h r "status" = VNumber 404 ->
  get_property h r "statusText" = VString "Not Found" ->
  get_property h r "data" = VObject d ->
  props (obj_at h d) = [("x", VNumber 1)] ->
  formatStellarError h (VObject l) fallback
  = Ok (VString
          (if has_property h l "status"
           then "HTTP 404 – Not Found – Request failed – Response: " ++ json_x_1
                ++ " | Horizon HTTP 404"
           else "HTTP 404 – Not Found – Request failed – Response: " ++ json_x_1)).
Proof.
  intros Hin Hmark Hmsg Hresp Hrs Hrt Hrd Hd.
  assert (parseAxiosError h (VObject l)
          = Ok (Some ("HTTP 404 – Not Found – Request failed – Response: "
                      ++ json_x_1))) as Ha.
  { unfold parseAxiosError. rewrite Hin, Hmark. simpl andb. cbv iota zeta.
    rewrite Hresp, Hmsg. simpl optional_get. rewrite Hrs, Hrt, Hrd.
    simpl truthy. cbv iota. rewrite (JSON_stringify_x_1 h d Hd). reflexivity. }
  assert (has_property h l "response" = true) as Hhas.
  { unfold has_property. unfold get_property in Hresp.
    destruct (lookup_property (obj_at h l) "response"); [reflexivity | discriminate]. }
  destruct (has_property h l "status") eqn:Hstatus.
  - assert (parseHorizonError h (VObject l) = Ok (Some "Horizon HTTP 404")) as Hb.
    { unfold parseHorizonError. rewrite Hhas, Hstatus. simpl andb. cbv iota.
      unfold parseHorizonError_try. rewrite Hresp. simpl optional_get.
      rewrite Hrs, Hrd. simpl optional_get.
      rewrite !(get_property_beside_x h d _ Hd) by reflexivity. reflexivity. }
    rewrite (formatStellarError_unfold _ _ _ _ _ Ha Hb). reflexivity.
  - assert (parseHorizonError h (VObject l) = Ok None) as Hb.
    { unfold parseHorizonError. rewrite Hstatus, andb_false_r. reflexivity. }
    rewrite (formatStellarError_unfold _ _ _ _ _ Ha Hb). reflexivity.
Qed.

Lemma formatStellarError_axios_not_found_witness :
  formatStellarError not_found_heap (VObject 0) "Transaction failed."
  = Ok (VString ("HTTP 404 – Not Found – Request failed – Response: " ++ json_x_1))
  /\ formatStellarError not_found_own_status_heap (VObject 0) "Transaction failed."
     = Ok (VString ("HTTP 404 – Not Found – Request failed – Response: " ++ json_x_1
                    ++ " | Horizon HTTP 404")).
Proof.
  split.
  - apply (formatStellarError_axios_not_found not_found_heap 0 1 2); reflexivity.
  - apply (formatStellarError_axios_not_found not_found_own_status_heap 0 1 2);
      reflexivity.
Defined.

(** C5: when the parsers produce the fragments [a] and [b], the result is
    [a], then [" | "], then [b]; when one of them produces a fragment and
    the other does not, the result is that fragment alone. *)
Theorem formatStellarError_joins_fragments (h : heap) (error : value)
    (fallback : string) (a b : option string) :
  parseAxiosError h error = Ok a ->
  parseHorizonError h error = Ok b ->
  a <> None \/ b <> None ->
  formatStellarError h error fallback
  = Ok (VString
          (match a, b with
           | Some fragmentA, Some fragmentB => fragmentA ++ " | " ++ fragmentB
           | Some fragmentA, None => fragmentA
           | None, Some fragmentB => fragmentB
           | None, None => fallback
           end)).
Proof.
  intros Ha Hb Hsome.
  rewrite (formatStellarError_unfold _ _ _ _ _ Ha Hb).
  destruct a as [x|], b as [y|].
  - pose proof (parseAxiosError_nonempty _ _ _ Ha) as Hx.
    pose proof (parseHorizonError_nonempty _ _ _ Hb) as Hy.
    simpl. rewrite Hx, Hy. reflexivity.
  - pose proof (parseAxiosError_nonempty _ _ _ Ha) as Hx.
    simpl. rewrite Hx. reflexivity.
  - pose proof (parseHorizonError_nonempty _ _ _ Hb) as Hy.
    simpl. rewrite Hy. reflexivity.
  - destruct Hsome; congruence.
Qed.

Lemma formatStellarError_joins_fragments_witness :
  formatStellarError both_shapes_heap (VObject 0) "Transaction failed."
  = Ok (VString (both_shapes_axios_fragment ++ " | "
                 ++ "Horizon HTTP 400 – Transaction Failed – op_underfunded")).
Proof.
  apply (formatStellarError_joins_fragments both_shapes_heap (VObject 0)
           "Transaction failed."
           (Some both_shapes_axios_fragment)
           (Some "Horizon HTTP 400 – Transaction Failed – op_underfunded"));
    [reflexivity | reflexivity | left; discriminate].
Defined.

(** What the [instanceof] branch returns is the [message] of the error,
    and it is truthy. *)
Lemma error_message_truthy (h : heap) (error m : value) :
  error_message h error = Some m ->
  exists l, error = VObject l /\ get_property h l "message" = m /\ truthy m = true.
Proof.
  destruct error as [ | | | | | | l]; try discriminate.
  unfold error_message.
  destruct (instanceof_Error h (VObject l)); [|discriminate]. simpl andb.
  destruct (truthy (get_property h l "message")) eqn:Ht; [|discriminate].
  intros H. injection H as <-. exists l. auto.
Qed.

Lemma string_message_get (h : heap) (l : loc) (s : string) :
  string_message h (VObject l) = Some s -> get_property h l "message" = VString s.
Proof.
  unfold string_message. destruct (has_property h l "message"); [|discriminate].
  destruct (get_property h l "message"); try discriminate. congruence.
Qed.

(** When the message is a string, the [instanceof] branch and the string
    branch agree. *)
Lemma error_message_of_string (h : heap) (error m : value) (s : string) :
  error_message h error = Some m -> string_message h error = Some s -> m = VString s.
Proof.
  intros Hm Hs. apply error_message_truthy in Hm as (l & -> & Hget & _).
  apply string_message_get in Hs. congruence.
Qed.

(** C6, as stated, fails: an [Error] instance whose [message] is the
    number 42 is of none of the three shapes (no fragment from either
    parser, no [message] of type string), and is not formatted as the
    fallback. *)
Lemma error_with_numeric_message_not_fallback :
  parseAxiosError numeric_message_heap (VObject 0) = Ok None
  /\ parseHorizonError numeric_message_heap (VObject 0) = Ok None
  /\ string_message numeric_message_heap (VObject 0) = None
  /\ formatStellarError numeric_message_heap (VObject 0) "Transaction failed."
     <> Ok (VString "Transaction failed.").
Proof. repeat split; try reflexivity. discriminate. Qed.

(** What it gets back is the number. *)
Lemma error_with_numeric_message_result (fallback : string) :
  formatStellarError numeric_message_heap (VObject 0) fallback = Ok (VNumber 42).
Proof. reflexivity. Qed.

(** C6 (amended): an error of none of the three recognized shapes (no
    fragment from [parseAxiosError], none from [parseHorizonError], and
    not an object with a string [message]) that is not an [Error] instance
    with a truthy [message] either is formatted as the fallback. *)
Theorem formatStellarError_fallback (h : heap) (error : value) (fallback : string) :
  parseAxiosError h error = Ok None ->
  parseHorizonError h error = Ok None ->
  string_message h error = None ->
  instanceof_Error h error && truthy (optional_get h error "message") = false ->
  formatStellarError h error fallback = Ok (VString fallback).
Proof.
  intros Ha Hb Hm Herr.
  rewrite (formatStellarError_unfold _ _ _ _ _ Ha Hb). simpl.
  assert (error_message h error = None) as ->.
  { destruct error as [ | | | | | | l]; try reflexivity.
    unfold error_message. simpl optional_get in Herr. rewrite Herr. reflexivity. }
  rewrite Hm. reflexivity.
Qed.

Lemma formatStellarError_fallback_witness :
  formatStellarError unrecognized_heap (VObject 0) "Transaction failed."
  = Ok (VString "Transaction failed.")
  /\ formatStellarError [] (VNumber 5) "Transaction failed."
     = Ok (VString "Transaction failed.").
Proof.
  split.
  - apply (formatStellarError_fallback unrecognized_heap (VObject 0)); reflexivity.
  - apply (formatStellarError_fallback [] (VNumber 5)); reflexivity.
Defined.

(** C7: [parseHorizonError] returns on every input, and an exception
    during the inspection (the serialization of [extras] is what can
    fail) makes it return [null]. *)
Theorem parseHorizonError_never_raises (h : heap) (error : value) :
  (exists r, parseHorizonError h error = Ok r)
  /\ (forall l e, error = VObject l ->
        parseHorizonError_try h l = Throw e ->
        parseHorizonError h error = Ok None).
Proof.
  split; [apply parseHorizonError_returns|].
  intros l e -> Htry. unfold parseHorizonError. rewrite Htry.
  destruct (has_property h l "response" && has_property h l "status"); reflexivity.
Qed.

(** The inspection does fail on cyclic extras, and the failure is
    swallowed, with the parts it had found. *)
Lemma parseHorizonError_swallows_cyclic_extras :
  parseHorizonError_try cyclic_extras_heap 0 = Throw TypeError_circular
  /\ parseHorizonError cyclic_extras_heap (VObject 0) = Ok None.
Proof. split; reflexivity. Qed.

(** C10: an object that gives no fragment and whose [message] is the
    empty string is formatted as the empty string, not as the fallback. *)
Theorem formatStellarError_empty_message (h : heap) (l : loc) (fallback : string) :
  parseAxiosError h (VObject l) = Ok None ->
  parseHorizonError h (VObject l) = Ok None ->
  get_property h l "message" = VString "" ->
  formatStellarError h (VObject l) fallback = Ok (VString "").
Proof.
  intros Ha Hb Hm.
  rewrite (formatStellarError_unfold _ _ _ _ _ Ha Hb).
  change (truthy (nullable None) || truthy (nullable None)) with false. cbv iota.
  assert (string_message h (VObject l) = Some "") as Hs.
  { unfold string_message, has_property, get_property.
    unfold get_property in Hm.
    destruct (lookup_property (obj_at h l) "message") as [v|]; [|discriminate].
    rewrite Hm. reflexivity. }
  destruct (error_message h (VObject l)) as [m|] eqn:E.
  - rewrite (error_message_of_string _ _ _ _ E Hs). reflexivity.
  - rewrite Hs. reflexivity.
Qed.

Lemma formatStellarError_empty_message_witness :
  formatStellarError empty_message_heap (VObject 0) "Transaction failed."
  = Ok (VString "").
Proof.
  apply (formatStellarError_empty_message empty_message_heap 0); reflexivity.
Defined.

End NormalizerClaims.

(* ===================================================================== *)
(** ** The SDK call sequences *)
(* ===================================================================== *)

Section CallSequences.
Import JS StellarMainnetExample.

Variable w : sdk.

Lemma no_validation_ret {A} (a : A) : no_validation (ret a).
Proof. intros tr. reflexivity. Qed.

Lemma no_validation_lift {A} (r : result A) : no_validation (lift r).
Proof. intros tr. reflexivity. Qed.

Lemma no_validation_call {T} (c : sdk_call T) :
  is_validation (Event c) = false -> no_validation (call w c).
Proof.
  intros Hc tr. unfold call.
  destruct (w T tr c); cbn [snd]; rewrite filter_app; cbn [filter];
    rewrite Hc; apply app_nil_r.
Qed.

Lemma no_validation_bind {A B} (m : M A) (k : A -> M B) :
  no_validation m -> (forall a, no_validation (k a)) -> no_validation (mbind m k).
Proof.
  intros Hm Hk tr. unfold mbind. specialize (Hm tr).
  destruct (m tr) as [[a|e] tr']; simpl in *.
  - rewrite Hk. exact Hm.
  - exact Hm.
Qed.

Lemma no_validation_try_catch {A} (m : M A) (handler : exn -> M A) :
  no_validation m -> (forall e, no_validation (handler e)) ->
  no_validation (try_catch_M m handler).
Proof.
  intros Hm Hh tr. unfold try_catch_M. specialize (Hm tr).
  destruct (m tr) as [[a|e] tr']; simpl in *.
  - exact Hm.
  - rewrite Hh. exact Hm.
Qed.

Ltac quiet :=
  repeat first
    [ apply no_validation_bind; [|intros]
    | apply no_validation_call; reflexivity
    | apply no_validation_lift
    | apply no_validation_ret ].

Lemma submitTransactionWithContext_no_validation (server transaction : handle) :
  no_validation (submitTransactionWithContext w server transaction).
Proof.
  unfold submitTransactionWithContext. apply no_validation_try_catch.
  - quiet.
  - intros e. destruct (caught e) as [h error]. unfold throw_new_Error. quiet.
Qed.

Lemma sendPaymentOnMainnet_no_validation (sourceSecret destination amount : string) :
  no_validation (sendPaymentOnMainnet w sourceSecret destination amount).
Proof.
  unfold sendPaymentOnMainnet. quiet. apply submitTransactionWithContext_no_validation.
Qed.

Lemma sendAssetPaymentOnMainnet_no_validation
    (sourceSecret destination assetCode issuer amount : string) :
  no_validation (sendAssetPaymentOnMainnet w sourceSecret destination assetCode
                   issuer amount).
Proof.
  unfold sendAssetPaymentOnMainnet. quiet.
  apply submitTransactionWithContext_no_validation.
Qed.

Lemma InteractPoolOp_no_validation (supply : bool) (sourceSecret poolId asset : string)
    (amount : Z) :
  no_validation (InteractPoolOp supply w sourceSecret poolId asset amount).
Proof. unfold InteractPoolOp. quiet. Qed.

(** C9: when the issuer is not a valid Ed25519 public key,
    [createTrustlineOnMainnet] throws an Error with the message
    ["Asset issuer must be a valid Stellar public key (G...)."], and the
    validation is the only call it has made: no account is loaded and no
    transaction built, signed or submitted.  No other function of the
    module validates a public key. *)
Theorem createTrustlineOnMainnet_rejects_invalid_issuer
    (accountSecret assetCode assetIssuerPublicKey : string) (limit : option string)
    (tr : trace) :
  w bool tr (StrKey_isValidEd25519PublicKey assetIssuerPublicKey) = Returns false ->
  createTrustlineOnMainnet w accountSecret assetCode assetIssuerPublicKey limit tr
  = (Throw (Thrown [mkObject (ErrorInstance (PString issuer_error)) []] (VObject 0)),
     (tr ++ [Event (StrKey_isValidEd25519PublicKey assetIssuerPublicKey)])%list)
  /\ (forall a b c, no_validation (sendPaymentOnMainnet w a b c))
  /\ (forall a b c d e, no_validation (sendAssetPaymentOnMainnet w a b c d e))
  /\ (forall supply a b c n, no_validation (InteractPoolOp supply w a b c n))
  /\ (forall server transaction,
        no_validation (submitTransactionWithContext w server transaction)).
Proof.
  intros Hinvalid. split.
  - unfold createTrustlineOnMainnet, mbind, call. rewrite Hinvalid. reflexivity.
  - repeat split; intros.
    + apply sendPaymentOnMainnet_no_validation.
    + apply sendAssetPaymentOnMainnet_no_validation.
    + apply InteractPoolOp_no_validation.
    + apply submitTransactionWithContext_no_validation.
Qed.

End CallSequences.

(** With a valid issuer and a calm world the trustline goes through: the
    rejection is not all [createTrustlineOnMainnet] can do. *)
Lemma createTrustlineOnMainnet_submits_valid_issuer :
  let run :=
    StellarMainnetExample.createTrustlineOnMainnet
      (StellarMainnetExample.calm_world (fun _ => true))
      "SSECRET" "USDC" "GISSUER" None [] in
  fst run = JS.Ok tt
  /\ existsb StellarMainnetExample.touches_ledger (snd run) = true.
Proof. split; reflexivity. Qed.

Lemma createTrustlineOnMainnet_rejects_invalid_issuer_witness :
  StellarMainnetExample.createTrustlineOnMainnet
    (StellarMainnetExample.calm_world (fun _ => false))
    "SSECRET" "USDC" "not-a-key" None []
  = (JS.Throw
       (JS.Thrown
          [JS.mkObject
             (JS.ErrorInstance (JS.PString StellarMainnetExample.issuer_error)) []]
          (JS.VObject 0)),
     [StellarMainnetExample.Event
        (StellarMainnetExample.StrKey_isValidEd25519PublicKey "not-a-key")]).
Proof.
  apply (createTrustlineOnMainnet_rejects_invalid_issuer
           (StellarMainnetExample.calm_world (fun _ => false))
           "SSECRET" "USDC" "not-a-key" None [] eq_refl).
Defined.

(* ===================================================================== *)
(** ** The operation-in-flight gate *)
(* ===================================================================== *)

Section Gate.
Import JS App.

Variable stellarSecret : string.

Lemma operation_eqb_eq (a b : operation) : operation_eqb a b = true -> a = b.
Proof. destruct a, b; simpl; congruence. Qed.

Lemma operation_eqb_refl (a : operation) : operation_eqb a a = true.
Proof. destruct a; reflexivity. Qed.

(** A raised flag disables every operation button. *)
Lemma flag_disables_buttons (s : state) (o op : operation) :
  operationInFlight s = Some o -> button_disabled stellarSecret s op = true.
Proof.
  intros Hflag. unfold button_disabled, operationsDisabled. rewrite Hflag.
  rewrite !orb_true_r. reflexivity.
Qed.

Lemma enabled_button_no_flag (s : state) (op : operation) :
  button_disabled stellarSecret s op = false -> operationInFlight s = None.
Proof.
  intros Hen. destruct (operationInFlight s) as [o|] eqn:Hflag; [|reflexivity].
  rewrite (flag_disables_buttons s o op Hflag) in Hen. discriminate.
Qed.

Lemma step_keeps_gate_invariant (s s' : state) (e : ui_event) :
  gate_invariant s -> step stellarSecret s e = Some s' -> gate_invariant s'.
Proof.
  unfold gate_invariant. intros Hinv Hstep.
  destruct e as [op form_ok | op | present]; simpl in Hstep.
  - destruct (button_disabled stellarSecret s op) eqn:Hen; [discriminate|].
    apply enabled_button_no_flag in Hen. rewrite Hen in Hinv.
    injection Hstep as <-. unfold handle_click.
    destruct (negb (nonempty stellarSecret)); [rewrite Hen; exact Hinv|].
    destruct (negb form_ok); [rewrite Hen; exact Hinv|].
    simpl. rewrite Hinv. reflexivity.
  - destruct (existsb (operation_eqb op) (pending s)) eqn:Hex; [|discriminate].
    injection Hstep as <-. simpl.
    destruct (operationInFlight s) as [o|]; rewrite Hinv in Hex |- *.
    + simpl in Hex. rewrite orb_false_r in Hex.
      apply operation_eqb_eq in Hex. subst o. simpl.
      rewrite operation_eqb_refl. reflexivity.
    + discriminate.
  - injection Hstep as <-. simpl. exact Hinv.
Qed.

Lemma reachable_gate_invariant (s : state) :
  reachable stellarSecret s -> gate_invariant s.
Proof.
  induction 1 as [|s e s' _ IH Hstep].
  - reflexivity.
  - exact (step_keeps_gate_invariant s s' e IH Hstep).
Qed.

(** C8: in every reachable state at most one blockchain operation is
    pending, and while one is, the flag names it and no click starts an
    operation: the step relation has no [Click] step from that state. *)
Theorem at_most_one_operation_pending (s : state) :
  reachable stellarSecret s ->
  List.length (pending s) <= 1
  /\ (forall o, In o (pending s) ->
        operationInFlight s = Some o
        /\ forall op form_ok, step stellarSecret s (Click op form_ok) = None).
Proof.
  intros Hreach. pose proof (reachable_gate_invariant s Hreach) as Hinv.
  unfold gate_invariant in Hinv. split.
  - rewrite Hinv. destruct (operationInFlight s); simpl; lia.
  - intros o Hin. rewrite Hinv in Hin.
    destruct (operationInFlight s) as [o'|] eqn:Hflag; simpl in Hin; [|contradiction].
    destruct Hin as [-> | []]. split; [reflexivity|].
    intros op form_ok. simpl.
    rewrite (flag_disables_buttons s o op Hflag). reflexivity.
Qed.

End Gate.

(** A session: the wallet is provisioned, an XLM payment is started, and
    while it is pending no other button answers; once it settles the
    trustline button does. *)
Lemma gate_session :
  App.run "SSECRET" App.initial [App.SetWallet true; App.Click App.native true]
  = Some (App.mkState true (Some App.native) [App.native])
  /\ App.run "SSECRET" App.initial
       [App.SetWallet true; App.Click App.native true; App.Click App.trust true]
     = None
  /\ App.run "SSECRET" App.initial
       [App.SetWallet true; App.Click App.native true; App.Settled App.native;
        App.Click App.trust true]
     = Some (App.mkState true (Some App.trust) [App.trust]).
Proof. repeat split; reflexivity. Qed.

Lemma at_most_one_operation_pending_witness :
  List.length (App.pending (App.mkState true (Some App.native) [App.native])) <= 1
  /\ (forall o, In o (App.pending (App.mkState true (Some App.native) [App.native])) ->
        App.operationInFlight (App.mkState true (Some App.native) [App.native]) = Some o
        /\ forall op form_ok,
             App.step "SSECRET" (App.mkState true (Some App.native) [App.native])
               (App.Click op form_ok) = None).
Proof.
  apply (at_most_one_operation_pending "SSECRET").
  apply (App.reachable_step "SSECRET" (App.mkState true None [])
           (App.Click App.native true)).
  - apply (App.reachable_step "SSECRET" App.initial (App.SetWallet true)).
    + apply App.reachable_initial.
    + reflexivity.
  - reflexivity.
Defined.

(* ===================================================================== *)
(** ** More on the error normalizer *)
(* ===================================================================== *)

Section NormalizerMore.
Import JS StellarMainnetExample.

(** X1: a thrown value that is not an object (a string, a number,
    [undefined], [null]) is formatted as the fallback: a thrown string is
    not shown. *)
Theorem formatStellarError_primitive (h : heap) (error : value) (fallback : string) :
  (forall l, error <> VObject l) ->
  formatStellarError h error fallback = Ok (VString fallback).
Proof.
  intros Hprim.
  destruct error as [ | | b | n | n | s | l]; try reflexivity.
  exfalso. exact (Hprim l eq_refl).
Qed.

Lemma formatStellarError_primitive_witness :
  formatStellarError [] (VString "boom") "Transaction failed."
  = Ok (VString "Transaction failed.")
  /\ formatStellarError [] VUndefined "Transaction failed."
     = Ok (VString "Transaction failed.").
Proof.
  split.
  - apply (formatStellarError_primitive [] (VString "boom")). discriminate.
  - apply (formatStellarError_primitive [] VUndefined). discriminate.
Defined.

(** X2: an error that gives no fragment and has a [message] of type
    string (an [Error] instance, or any object with such a property) is
    formatted as that message, whatever the fallback. *)
Theorem formatStellarError_shows_message (h : heap) (error : value)
    (fallback message : string) :
  parseAxiosError h error = Ok None ->
  parseHorizonError h error = Ok None ->
  string_message h error = Some message ->
  formatStellarError h error fallback = Ok (VString message).
Proof.
  intros Ha Hb Hm.
  rewrite (formatStellarError_unfold _ _ _ _ _ Ha Hb).
  change (truthy (nullable None) || truthy (nullable None)) with false. cbv iota.
  destruct (error_message h error) as [m|] eqn:E.
  - rewrite (error_message_of_string _ _ _ _ E Hm). reflexivity.
  - rewrite Hm. reflexivity.
Qed.

Lemma formatStellarError_shows_message_witness :
  formatStellarError boom_heap (VObject 0) "Transaction failed." = Ok (VString "boom").
Proof.
  apply (formatStellarError_shows_message boom_heap (VObject 0)); reflexivity.
Defined.

(** X3: [parseAxiosError] returns [null] exactly on what is not an object
    with a truthy [isAxiosError]; on a marked object it returns a fragment
    or raises. *)
Theorem parseAxiosError_null_iff (h : heap) (error : value) :
  parseAxiosError h error = Ok None
  <-> (forall l, error = VObject l ->
         has_property h l "isAxiosError" && truthy (get_property h l "isAxiosError")
         = false).
Proof.
  split.
  - intros Hnull l ->. unfold parseAxiosError in Hnull.
    destruct (has_property h l "isAxiosError" && truthy (get_property h l "isAxiosError"));
      [|reflexivity].
    cbv zeta in Hnull. apply bind_Ok_inv in Hnull as (part & _ & Hnull).
    discriminate.
  - intros Hguard. destruct error as [ | | b | n | n | s | l]; try reflexivity.
    unfold parseAxiosError. rewrite (Hguard l eq_refl). reflexivity.
Qed.

Lemma nonempty_append_r (s t : string) : nonempty t = true -> nonempty (s ++ t) = true.
Proof. destruct s; simpl; [auto | reflexivity]. Qed.

(** The joined fragments are not empty. *)
Lemma joined_fragments_nonempty (h : heap) (a b : option string) :
  (forall x, a = Some x -> nonempty x = true) ->
  (forall y, b = Some y -> nonempty y = true) ->
  truthy (nullable a) || truthy (nullable b) = true ->
  nonempty (join h " | " (filter truthy [nullable a; nullable b])) = true.
Proof.
  intros Ha Hb Hsome.
  apply join_truthy_nonempty; [apply filter_truthy_all|].
  destruct a as [x|]; [|destruct b as [y|]].
  - simpl. rewrite (Ha x eq_refl). discriminate.
  - simpl. rewrite (Hb y eq_refl). discriminate.
  - discriminate.
Qed.

(** X4: the only way to the empty string is an empty fallback or a
    [message] that is the empty string. *)
Theorem formatStellarError_empty_result (h : heap) (error : value) (fallback : string) :
  formatStellarError h error fallback = Ok (VString "") ->
  fallback = "" \/ string_message h error = Some "".
Proof.
  intros Hempty.
  destruct (parseAxiosError h error) as [a|e] eqn:Ha.
  2:{ unfold formatStellarError in Hempty. rewrite Ha in Hempty. discriminate. }
  destruct (parseHorizonError_returns h error) as [b Hb].
  rewrite (formatStellarError_unfold _ _ _ _ _ Ha Hb) in Hempty.
  destruct (truthy (nullable a) || truthy (nullable b)) eqn:Hsome.
  - exfalso.
    assert (nonempty (join h " | " (filter truthy [nullable a; nullable b])) = true)
      as Hne.
    { apply joined_fragments_nonempty; [| |exact Hsome].
      - intros x ->. exact (parseAxiosError_nonempty _ _ _ Ha).
      - intros y ->. exact (parseHorizonError_nonempty _ _ _ Hb). }
    assert (join h " | " (filter truthy [nullable a; nullable b]) = "") as Hj
      by congruence.
    rewrite Hj in Hne. discriminate.
  - destruct (error_message h error) as [m|] eqn:E.
    + exfalso. apply error_message_truthy in E as (l & _ & _ & Ht).
      assert (m = VString "") as -> by congruence. discriminate.
    + destruct (string_message h error) as [s|]; [right | left]; congruence.
Qed.

Lemma formatStellarError_empty_result_witness :
  "Transaction failed." = ""
  \/ string_message empty_message_heap (VObject 0) = Some "".
Proof.
  apply (formatStellarError_empty_result empty_message_heap (VObject 0)
           "Transaction failed.").
  reflexivity.
Defined.

(** X6: a Horizon fragment comes only from an object that has [response]
    and a [status] of its own, and whose [response] has a truthy [status]
    or an object as [data]. *)
Theorem parseHorizonError_fragment_requires (h : heap) (error : value) (b : string) :
  parseHorizonError h error = Ok (Some b) ->
  exists l, error = VObject l
    /\ has_property h l "response" = true
    /\ has_property h l "status" = true
    /\ (truthy (optional_get h (get_property h l "response") "status") = true
        \/ exists d, optional_get h (get_property h l "response") "data" = VObject d).
Proof.
  intros Hb. destruct error as [ | | | | | | l]; try discriminate.
  exists l. split; [reflexivity|].
  assert (has_property h l "response" && has_property h l "status" = true) as Hguard.
  { unfold parseHorizonError in Hb.
    destruct (has_property h l "response" && has_property h l "status");
      [reflexivity | discriminate]. }
  apply andb_prop in Hguard as [Hr Hs]. split; [exact Hr|]. split; [exact Hs|].
  destruct (truthy (optional_get h (get_property h l "response") "status")) eqn:Hst;
    [left; reflexivity|].
  right.
  destruct (optional_get h (get_property h l "response") "data") as [ | | | | | | d] eqn:Hd;
    try (exfalso;
         assert (parseHorizonError h (VObject l) = Ok None) as Hnone
           by (unfold parseHorizonError, parseHorizonError_try;
               rewrite Hr, Hs, Hst, Hd; reflexivity);
         congruence).
  exists d. reflexivity.
Qed.

Lemma parseHorizonError_fragment_requires_witness :
  exists l, VObject 0 = VObject l
    /\ has_property ledger_heap_with_status l "response" = true
    /\ has_property ledger_heap_with_status l "status" = true
    /\ (truthy (optional_get ledger_heap_with_status
                  (get_property ledger_heap_with_status l "response") "status") = true
        \/ exists d, optional_get ledger_heap_with_status
                       (get_property ledger_heap_with_status l "response") "data"
                     = VObject d).
Proof.
  apply (parseHorizonError_fragment_requires ledger_heap_with_status (VObject 0)
           "Horizon HTTP 400 – Bad Request – op_underfunded").
  reflexivity.
Defined.

End NormalizerMore.

(* ===================================================================== *)
(** ** More on the SDK call sequences *)
(* ===================================================================== *)

Section CallSequencesMore.
Import JS StellarMainnetExample.

Variable w : sdk.

(** Follow a computation through every reply the world can give. *)
Ltac explore :=
  unfold sendPaymentOnMainnet, sendAssetPaymentOnMainnet, createTrustlineOnMainnet,
    SupplyOp, WithdrawalOp, InteractPoolOp, submitTransactionWithContext,
    try_catch_M, throw_new_Error, lift, mbind, call;
  repeat first
    [ match goal with
      | |- context [w ?T ?tr ?c] =>
          let R := fresh "R" in
          destruct (w T tr c) eqn:R; cbn [app fst snd caught negb]
      end
    | match goal with
      | |- context [formatStellarError ?h ?v ?fb] =>
          destruct (formatStellarError h v fb); cbn [app fst snd]
      end
    | match goal with
      | |- context [negb ?b] => is_var b; destruct b; cbn [app fst snd negb]
      end ].

(** X7: none of the functions hands a transaction to the network that it
    has not called [sign] on before, whatever the SDK answers. *)
Theorem submits_only_what_it_signed :
  (forall a b c, submits_only_signed [] (snd (sendPaymentOnMainnet w a b c [])) = true)
  /\ (forall a b c d e,
        submits_only_signed [] (snd (sendAssetPaymentOnMainnet w a b c d e [])) = true)
  /\ (forall a b c limit,
        submits_only_signed [] (snd (createTrustlineOnMainnet w a b c limit [])) = true)
  /\ (forall supply a b c n,
        submits_only_signed [] (snd (InteractPoolOp supply w a b c n [])) = true).
Proof.
  repeat split; intros; explore; cbn; rewrite ?Nat.eqb_refl; reflexivity.
Qed.

(** X8: no function submits twice (there is no retry), and one that
    returns has submitted exactly once. *)
Theorem submits_at_most_once :
  (forall a b c,
     submissions (snd (sendPaymentOnMainnet w a b c [])) <= 1
     /\ match fst (sendPaymentOnMainnet w a b c []) with
        | Ok _ => submissions (snd (sendPaymentOnMainnet w a b c [])) = 1
        | Throw _ => True
        end)
  /\ (forall a b c d e,
        submissions (snd (sendAssetPaymentOnMainnet w a b c d e [])) <= 1
        /\ match fst (sendAssetPaymentOnMainnet w a b c d e []) with
           | Ok _ => submissions (snd (sendAssetPaymentOnMainnet w a b c d e [])) = 1
           | Throw _ => True
           end)
  /\ (forall a b c limit,
        submissions (snd (createTrustlineOnMainnet w a b c limit [])) <= 1
        /\ match fst (createTrustlineOnMainnet w a b c limit []) with
           | Ok _ => submissions (snd (createTrustlineOnMainnet w a b c limit [])) = 1
           | Throw _ => True
           end)
  /\ (forall supply a b c n,
        submissions (snd (InteractPoolOp supply w a b c n [])) <= 1
        /\ match fst (InteractPoolOp supply w a b c n []) with
           | Ok _ => submissions (snd (InteractPoolOp supply w a b c n [])) = 1
           | Throw _ => True
           end).
Proof.
  repeat split; intros; explore; cbn; auto.
Qed.

(** [new Error(message)] is formatted as its message. *)
Lemma formatStellarError_new_Error (message fallback : string) :
  formatStellarError [mkObject (ErrorInstance (PString message)) []] (VObject 0) fallback
  = Ok (VString message).
Proof. destruct message; reflexivity. Qed.

(** X9: when Horizon turns a submission down and the error it threw is
    formatted as [message], [submitTransactionWithContext] throws a new
    Error in its place, and formatting that Error again, with whatever
    fallback, gives [message] back: the caller shows the text unchanged. *)
Theorem submission_failure_shown_verbatim (server transaction : handle) (tr : trace)
    (h : heap) (v : value) (message fallback : string) :
  w handle tr (Server_submitTransaction server transaction) = Raises h v ->
  formatStellarError h v "Transaction failed." = Ok (VString message) ->
  exists h' v',
    submitTransactionWithContext w server transaction tr
    = (Throw (Thrown h' v'),
       (tr ++ [Event (Server_submitTransaction server transaction)])%list)
    /\ formatStellarError h' v' fallback = Ok (VString message).
Proof.
  intros Hraise Hformat.
  exists [mkObject (ErrorInstance (PString message)) []], (VObject 0). split.
  - unfold submitTransactionWithContext, try_catch_M, call. rewrite Hraise.
    cbn [caught]. unfold mbind, lift. rewrite Hformat. reflexivity.
  - apply formatStellarError_new_Error.
Qed.

(** X10: [InteractPoolOp] (supply and withdrawal) formats nothing: when
    it throws, what it throws is the value the SDK threw at its last
    call. *)
Theorem pool_errors_pass_unformatted (supply : bool) (a b c : string) (n : Z) (e : exn) :
  fst (InteractPoolOp supply w a b c n []) = Throw e ->
  exists (T : Type) (last : sdk_call T) (before : trace) (h : heap) (v : value),
    w T before last = Raises h v
    /\ e = Thrown h v
    /\ snd (InteractPoolOp supply w a b c n []) = (before ++ [Event last])%list.
Proof.
  explore; intros Hthrow; try discriminate;
    (do 5 eexists; split; [eassumption | split; [congruence | reflexivity]]).
Qed.

(** X11: the pool transaction is signed only after [prepareTransaction]
    has been called. *)
Theorem pool_signs_after_prepare (supply : bool) (a b c : string) (n : Z) :
  signs_after_prepare false (snd (InteractPoolOp supply w a b c n [])) = true.
Proof. explore; reflexivity. Qed.

(** X12: [SupplyOp] asks the pool for a collateral supply only and
    [WithdrawalOp] for a collateral withdrawal only, of the amount and the
    asset they were given. *)
Theorem pool_request_types (a b asset : string) (n : Z) :
  forallb (requests_only SupplyCollateral n asset) (snd (SupplyOp w a b asset n [])) = true
  /\ forallb (requests_only WithdrawCollateral n asset)
       (snd (WithdrawalOp w a b asset n [])) = true.
Proof.
  split; explore; cbn; rewrite ?Z.eqb_refl, ?String.eqb_refl; reflexivity.
Qed.

(** X13: [createTrustlineOnMainnet] loads an account, builds, signs or
    submits only when the validation of the issuer has answered true. *)
Theorem createTrustline_touches_ledger_only_if_valid (a b issuer : string)
    (limit : option string) :
  existsb touches_ledger (snd (createTrustlineOnMainnet w a b issuer limit [])) = true ->
  w bool [] (StrKey_isValidEd25519PublicKey issuer) = Returns true.
Proof.
  unfold createTrustlineOnMainnet, mbind at 1. unfold call at 1.
  destruct (w bool [] (StrKey_isValidEd25519PublicKey issuer)) as [[|]|h v];
    cbn; try discriminate.
  reflexivity.
Qed.

End CallSequencesMore.

Lemma submission_failure_shown_verbatim_witness :
  exists h' v',
    StellarMainnetExample.submitTransactionWithContext
      (StellarMainnetExample.rejecting_world
         StellarMainnetExample.ledger_heap_with_status (JS.VObject 0)) 7 9 []
    = (JS.Throw (JS.Thrown h' v'),
       [StellarMainnetExample.Event
          (StellarMainnetExample.Server_submitTransaction 7 9)])
    /\ StellarMainnetExample.formatStellarError h' v'
         "Unable to send XLM payment. Inspect console for details."
       = JS.Ok (JS.VString "Horizon HTTP 400 – Bad Request – op_underfunded").
Proof.
  apply (submission_failure_shown_verbatim
           (StellarMainnetExample.rejecting_world
              StellarMainnetExample.ledger_heap_with_status (JS.VObject 0))
           7 9 [] StellarMainnetExample.ledger_heap_with_status (JS.VObject 0));
    reflexivity.
Defined.

Lemma pool_errors_pass_unformatted_witness :
  exists (T : Type) (last : StellarMainnetExample.sdk_call T)
         (before : StellarMainnetExample.trace) (h : JS.heap) (v : JS.value),
    StellarMainnetExample.soroban_rejecting_world
      StellarMainnetExample.boom_heap (JS.VObject 0) T before last
    = StellarMainnetExample.Raises h v
    /\ JS.Thrown StellarMainnetExample.boom_heap (JS.VObject 0) = JS.Thrown h v
    /\ snd (StellarMainnetExample.InteractPoolOp true
              (StellarMainnetExample.soroban_rejecting_world
                 StellarMainnetExample.boom_heap (JS.VObject 0))
              "SSECRET" "CPOOL" "CASSET" 100 [])
       = (before ++ [StellarMainnetExample.Event last])%list.
Proof.
  apply (pool_errors_pass_unformatted
           (StellarMainnetExample.soroban_rejecting_world
              StellarMainnetExample.boom_heap (JS.VObject 0))
           true "SSECRET" "CPOOL" "CASSET" 100).
  reflexivity.
Defined.

Lemma createTrustline_touches_ledger_only_if_valid_witness :
  StellarMainnetExample.calm_world (fun _ => true) bool []
    (StellarMainnetExample.StrKey_isValidEd25519PublicKey "GISSUER")
  = StellarMainnetExample.Returns true.
Proof.
  apply (createTrustline_touches_ledger_only_if_valid
           (StellarMainnetExample.calm_world (fun _ => true))
           "SSECRET" "USDC" "GISSUER" None).
  reflexivity.
Defined.

(* ===================================================================== *)
(** ** More on the operation-in-flight gate *)
(* ===================================================================== *)

Section GateMore.
Import JS App.

Variable stellarSecret : string.

(** X14: the gate reopens: in a reachable state whose flag is raised, the
    pending call is the one the flag names, it can settle, and settling
    lowers the flag and leaves nothing pending; a button then answers
    again as soon as the secret and the wallet are there. *)
Theorem gate_reopens (s : state) (o : operation) :
  reachable stellarSecret s ->
  operationInFlight s = Some o ->
  step stellarSecret s (Settled o) = Some (mkState (wallet s) None [])
  /\ forall op,
       button_disabled stellarSecret (mkState (wallet s) None []) op
       = negb (nonempty stellarSecret) || negb (wallet s).
Proof.
  intros Hreach Hflag.
  pose proof (reachable_gate_invariant stellarSecret s Hreach) as Hinv.
  unfold gate_invariant in Hinv. rewrite Hflag in Hinv. split.
  - unfold step, handle_settled. rewrite Hinv. simpl.
    rewrite operation_eqb_refl. reflexivity.
  - intros op. unfold button_disabled, operationsDisabled. simpl.
    rewrite !orb_false_r. reflexivity.
Qed.

(** X15: a click starts an operation only when the secret is set, the
    wallet is there, the form is complete and nothing is in flight; the
    operation started is the one of the button. *)
Theorem click_starts_only_when_ready (s s' : state) (op : operation) (form_ok : bool) :
  step stellarSecret s (Click op form_ok) = Some s' ->
  pending s' <> pending s ->
  nonempty stellarSecret = true /\ wallet s = true /\ form_ok = true
  /\ operationInFlight s = None
  /\ s' = mkState true (Some op) (op :: pending s).
Proof.
  unfold step, button_disabled, operationsDisabled, handle_click.
  destruct (nonempty stellarSecret); simpl; [|discriminate].
  destruct (wallet s) eqn:Hw; simpl; [|discriminate].
  destruct (operationInFlight s) as [o|]; simpl; [discriminate|].
  destruct form_ok; simpl; intros Hstep Hchange; injection Hstep as <-.
  - repeat split; reflexivity.
  - contradiction.
Qed.

End GateMore.

(** X16: without a secret no operation is ever started: in every
    reachable state nothing is pending and the flag is down. *)
Theorem no_secret_no_operation (s : App.state) :
  App.reachable "" s -> App.pending s = [] /\ App.operationInFlight s = None.
Proof.
  induction 1 as [|s e s' _ [IHp IHf] Hstep]; [split; reflexivity|].
  destruct e as [op form_ok | op | present]; simpl in Hstep.
  - discriminate.
  - rewrite IHp in Hstep. discriminate.
  - injection Hstep as <-. simpl. split; assumption.
Qed.

Lemma gate_reopens_witness :
  App.step "SSECRET" (App.mkState true (Some App.native) [App.native])
    (App.Settled App.native)
  = Some (App.mkState true None [])
  /\ forall op,
       App.button_disabled "SSECRET" (App.mkState true None []) op
       = negb (JS.nonempty "SSECRET") || negb true.
Proof.
  apply (gate_reopens "SSECRET" (App.mkState true (Some App.native) [App.native])
           App.native).
  - apply (App.reachable_step "SSECRET" (App.mkState true None [])
             (App.Click App.native true)).
    + apply (App.reachable_step "SSECRET" App.initial (App.SetWallet true)).
      * apply App.reachable_initial.
      * reflexivity.
    + reflexivity.
  - reflexivity.
Defined.

Lemma click_starts_only_when_ready_witness :
  JS.nonempty "SSECRET" = true /\ true = true /\ true = true
  /\ App.operationInFlight (App.mkState true None []) = None
  /\ App.mkState true (Some App.trust) [App.trust]
     = App.mkState true (Some App.trust)
         (App.trust :: App.pending (App.mkState true None [])).
Proof.
  apply (click_starts_only_when_ready "SSECRET" (App.mkState true None [])
           (App.mkState true (Some App.trust) [App.trust]) App.trust true).
  - reflexivity.
  - discriminate.
Defined.

Lemma no_secret_no_operation_witness :
  App.pending (App.mkState true None []) = []
  /\ App.operationInFlight (App.mkState true None []) = None.
Proof.
  apply (no_secret_no_operation (App.mkState true None [])).
  apply (App.reachable_step "" App.initial (App.SetWallet true)).
  - apply App.reachable_initial.
  - reflexivity.
Defined.

(* ===================================================================== *)
(** ** The handlers of the payment and trustline forms *)
(* ===================================================================== *)

Section TrimFacts.
Import JS.

Lemma strip_prefix_length (p s s' : string) :
  strip_prefix p s = Some s' ->
  String.length s = String.length p + String.length s'.
Proof.
  revert s. induction p as [|c p IH]; intros s H; simpl in H.
  - injection H as ->. reflexivity.
  - destruct s as [|d s]; [discriminate|].
    destruct (Ascii.eqb c d); [|discriminate].
    simpl. rewrite (IH s H). reflexivity.
Qed.

Lemma strip_any_shorter (ps : list string) (s s' : string) :
  Forall (fun p => p <> "") ps ->
  strip_any ps s = Some s' ->
  String.length s' < String.length s.
Proof.
  induction 1 as [|p ps Hp _ IH]; simpl; [discriminate|].
  destruct (strip_prefix p s) as [r|] eqn:E; [|exact IH].
  intros H. injection H as ->.
  apply strip_prefix_length in E. destruct p; [congruence|]. simpl in E. lia.
Qed.

(** With fuel for every byte, [trim_left] leaves no prefix to strip. *)
Lemma trim_left_done (ps : list string) :
  Forall (fun p => p <> "") ps ->
  forall (fuel : nat) (s : string),
    String.length s <= fuel -> strip_any ps (trim_left ps fuel s) = None.
Proof.
  intros Hps. induction fuel as [|fuel IH]; intros s Hlen; simpl.
  - destruct s; [|simpl in Hlen; lia].
    clear Hlen. induction Hps as [|p ps Hp _ IHps]; [reflexivity|].
    simpl. destruct p; [congruence | exact IHps].
  - destruct (strip_any ps s) as [s'|] eqn:E; [|exact E].
    apply IH. apply (strip_any_shorter ps s s' Hps) in E. lia.
Qed.

Lemma whitespace_nonempty : Forall (fun p => p <> "") whitespace.
Proof. repeat constructor; discriminate. Qed.

(** What [trimStart] returns does not start with white space. *)
Lemma trimStart_no_leading (s : string) : strip_any whitespace (trimStart s) = None.
Proof. apply trim_left_done; [apply whitespace_nonempty | apply Nat.le_refl]. Qed.

Lemma length_append (s t : string) :
  String.length (s ++ t) = String.length s + String.length t.
Proof. induction s as [|c s IH]; simpl; [reflexivity | rewrite IH; reflexivity]. Qed.

Lemma string_rev_length (s : string) : String.length (string_rev s) = String.length s.
Proof.
  induction s as [|c s IH]; [reflexivity|].
  simpl. rewrite length_append, IH. simpl. lia.
Qed.

Lemma append_empty_r (s : string) : s ++ "" = s.
Proof. induction s as [|c s IH]; simpl; [reflexivity | rewrite IH; reflexivity]. Qed.

Lemma append_assoc (s t u : string) : (s ++ t) ++ u = s ++ (t ++ u).
Proof. induction s as [|c s IH]; simpl; [reflexivity | rewrite IH; reflexivity]. Qed.

Lemma string_rev_append (s t : string) :
  string_rev (s ++ t) = string_rev t ++ string_rev s.
Proof.
  induction s as [|c s IH]; simpl.
  - rewrite append_empty_r. reflexivity.
  - rewrite IH, append_assoc. reflexivity.
Qed.

Lemma string_rev_involutive (s : string) : string_rev (string_rev s) = s.
Proof.
  induction s as [|c s IH]; [reflexivity|].
  simpl. rewrite string_rev_append, IH. reflexivity.
Qed.

(** What [trimEnd] returns does not end with white space. *)
Lemma trimEnd_no_trailing (s : string) :
  strip_any (map string_rev whitespace) (string_rev (trimEnd s)) = None.
Proof.
  unfold trimEnd. rewrite string_rev_involutive.
  apply trim_left_done.
  - repeat constructor; discriminate.
  - rewrite string_rev_length. apply Nat.le_refl.
Qed.

End TrimFacts.

(** Follow a handler through every reply the world [w] can give. *)
Ltac follow w :=
  unfold StellarMainnetExample.sendPaymentOnMainnet,
    StellarMainnetExample.sendAssetPaymentOnMainnet,
    StellarMainnetExample.createTrustlineOnMainnet,
    StellarMainnetExample.submitTransactionWithContext,
    StellarMainnetExample.try_catch_M, StellarMainnetExample.throw_new_Error,
    StellarMainnetExample.lift, StellarMainnetExample.mbind,
    StellarMainnetExample.call;
  repeat first
    [ match goal with
      | |- context [w ?T ?tr ?c] =>
          let R := fresh "R" in
          destruct (w T tr c) eqn:R;
          cbn [app fst snd StellarMainnetExample.caught negb]
      end
    | match goal with
      | |- context [StellarMainnetExample.formatStellarError ?h ?v ?fb] =>
          destruct (StellarMainnetExample.formatStellarError h v fb);
          cbn [app fst snd StellarMainnetExample.caught]
      end
    | match goal with
      | |- context [StellarMainnetExample.caught ?e] =>
          is_var e; destruct (StellarMainnetExample.caught e); cbn [app fst snd]
      end
    | match goal with
      | |- context [negb ?b] =>
          is_var b; destruct b;
          cbn [app fst snd negb StellarMainnetExample.caught]
      end ].

Section HandlersFacts.
Import JS StellarMainnetExample App Handlers.

Variable w : sdk.



(** X18: whatever is typed into the forms, no handler gives the SDK an
    empty secret, destination, amount, asset code, issuer or limit. *)
Theorem handlers_pass_no_blank :
  (forall secret destination amount u,
     forallb no_blank_argument (calls (handleSendNative w secret destination amount u))
     = true)
  /\ (forall secret destination code issuer amount u,
        forallb no_blank_argument
          (calls (handleSendAsset w secret destination code issuer amount u)) = true)
  /\ (forall secret code issuer limit u,
        forallb no_blank_argument
          (calls (handleCreateTrustline w secret code issuer limit u)) = true).
Proof.
  split; [|split].
  - intros secret destination amount u. unfold handleSendNative.
    destruct (nonempty secret) eqn:Hs; [|reflexivity].
    destruct (nonempty (trim destination)) eqn:Hd; [|reflexivity].
    destruct (nonempty (trim amount)) eqn:Ha; [|reflexivity].
    cbn [negb orb]. cbv zeta. unfold attempt.
    follow w; cbn [calls forallb no_blank_argument]; rewrite ?Hs, ?Hd, ?Ha;
      reflexivity.
  - intros secret destination code issuer amount u. unfold handleSendAsset.
    destruct (nonempty secret) eqn:Hs; [|reflexivity].
    destruct (nonempty (trim destination)) eqn:Hd; [|reflexivity].
    destruct (nonempty (trim code)) eqn:Hc; [|reflexivity].
    destruct (nonempty (trim issuer)) eqn:Hi; [|reflexivity].
    destruct (nonempty (trim amount)) eqn:Ha; [|reflexivity].
    cbn [negb orb]. cbv zeta. unfold attempt.
    follow w; cbn [calls forallb no_blank_argument];
      rewrite ?Hs, ?Hd, ?Hc, ?Hi, ?Ha; reflexivity.
  - intros secret code issuer limit u. unfold handleCreateTrustline.
    destruct (nonempty secret) eqn:Hs; [|reflexivity].
    destruct (nonempty (trim code)) eqn:Hc; [|reflexivity].
    destruct (nonempty (trim issuer)) eqn:Hi; [|reflexivity].
    cbn [negb orb]. cbv zeta. unfold attempt, limit_or_undefined.
    destruct (nonempty (trim limit)) eqn:Hl;
      follow w; cbn [calls forallb no_blank_argument];
      rewrite ?Hs, ?Hc, ?Hi, ?Hl; reflexivity.
Qed.

(** X19: with the secret missing or a required field blank (white space
    only), a handler calls nothing, shows the message of the form and
    leaves the progress text, the flag and the console as they were. *)
Theorem handlers_reject_blank :
  (forall secret destination amount u,
     nonempty secret = false \/ trim destination = "" \/ trim amount = "" ->
     handleSendNative w secret destination amount u
     = returned (setError (Some (VString (if nonempty secret then native_required
                                          else missing_secret))) u))
  /\ (forall secret destination code issuer amount u,
        nonempty secret = false \/ trim destination = "" \/ trim code = ""
        \/ trim issuer = "" \/ trim amount = "" ->
        handleSendAsset w secret destination code issuer amount u
        = returned (setError (Some (VString (if nonempty secret then asset_required
                                             else missing_secret))) u))
  /\ (forall secret code issuer limit u,
        nonempty secret = false \/ trim code = "" \/ trim issuer = "" ->
        handleCreateTrustline w secret code issuer limit u
        = returned (setError (Some (VString (if nonempty secret then trust_required
                                             else missing_secret))) u)).
Proof.
  split; [|split].
  - intros secret destination amount u H. unfold handleSendNative.
    destruct (nonempty secret); [|reflexivity].
    destruct H as [H | [H | H]]; [discriminate | | ]; rewrite H; cbn [nonempty];
      simpl; rewrite ?orb_true_r; reflexivity.
  - intros secret destination code issuer amount u H. unfold handleSendAsset.
    destruct (nonempty secret); [|reflexivity].
    destruct H as [H | [H | [H | [H | H]]]]; [discriminate | | | | ]; rewrite H;
      simpl; rewrite ?orb_true_r; reflexivity.
  - intros secret code issuer limit u H. unfold handleCreateTrustline.
    destruct (nonempty secret); [|reflexivity].
    destruct H as [H | [H | H]]; [discriminate | | ]; rewrite H;
      simpl; rewrite ?orb_true_r; reflexivity.
Qed.

(** X20: when the issuer typed into the trustline form is not a valid
    public key, the handler has asked for the validation only, and shows
    ["Asset issuer must be a valid Stellar public key (G...)."], with the
    progress text cleared and the gate open. *)
Theorem trustline_invalid_issuer_shown (secret code issuer limit : string) (u : ui) :
  nonempty secret = true ->
  nonempty (trim code) = true ->
  nonempty (trim issuer) = true ->
  w bool [] (StrKey_isValidEd25519PublicKey (trim issuer)) = Returns false ->
  error (shown (handleCreateTrustline w secret code issuer limit u))
  = Some (VString issuer_error)
  /\ info (shown (handleCreateTrustline w secret code issuer limit u)) = None
  /\ inFlight (shown (handleCreateTrustline w secret code issuer limit u)) = None
  /\ calls (handleCreateTrustline w secret code issuer limit u)
     = [Event (StrKey_isValidEd25519PublicKey (trim issuer))]
  /\ uncaught (handleCreateTrustline w secret code issuer limit u) = None.
Proof.
  intros Hs Hc Hi Hinvalid.
  assert (createTrustlineOnMainnet w secret (trim code) (trim issuer)
            (limit_or_undefined limit) []
          = (Throw (Thrown [mkObject (ErrorInstance (PString issuer_error)) []]
                      (VObject 0)),
             [Event (StrKey_isValidEd25519PublicKey (trim issuer))])) as Hrun.
  { unfold createTrustlineOnMainnet, mbind, call. rewrite Hinvalid. reflexivity. }
  unfold handleCreateTrustline. rewrite Hs, Hc, Hi. cbn [negb orb]. cbv zeta.
  unfold attempt. rewrite Hrun. cbn. repeat split; reflexivity.
Qed.

(** X21: when the SDK function a handler calls throws [new Error(message)]
    (as [submitTransactionWithContext] and the validation of the issuer
    do), the handler shows [message] itself and not its own fallback. *)
Theorem thrown_Error_shown_verbatim (run : M unit) (submitted label fallback : string)
    (u : ui) (message : string) (tr : trace) :
  run []
  = (Throw (Thrown [mkObject (ErrorInstance (PString message)) []] (VObject 0)), tr) ->
  error (shown (attempt run submitted label fallback u)) = Some (VString message)
  /\ info (shown (attempt run submitted label fallback u)) = None
  /\ inFlight (shown (attempt run submitted label fallback u)) = None
  /\ uncaught (attempt run submitted label fallback u) = None.
Proof.
  intros Hrun. unfold attempt. rewrite Hrun. cbn [caught].
  rewrite formatStellarError_new_Error. cbn. repeat split; reflexivity.
Qed.

End HandlersFacts.


Lemma handlers_reject_blank_witness :
  Handlers.handleSendNative (StellarMainnetExample.calm_world (fun _ => true))
    "SSECRET" (JS.bytes [32; 9; 194; 160]) "1.5" Handlers.blank_ui
  = Handlers.returned
      (Handlers.setError (Some (JS.VString Handlers.native_required))
         Handlers.blank_ui).
Proof.
  apply (proj1 (handlers_reject_blank (StellarMainnetExample.calm_world (fun _ => true)))
           "SSECRET" (JS.bytes [32; 9; 194; 160]) "1.5" Handlers.blank_ui).
  right. left. reflexivity.
Defined.

Lemma trustline_invalid_issuer_shown_witness :
  Handlers.error
    (Handlers.shown
       (Handlers.handleCreateTrustline (StellarMainnetExample.calm_world (fun _ => false))
          "SSECRET" " USDC" "not-a-key " " " Handlers.blank_ui))
  = Some (JS.VString StellarMainnetExample.issuer_error)
  /\ Handlers.info
       (Handlers.shown
          (Handlers.handleCreateTrustline
             (StellarMainnetExample.calm_world (fun _ => false))
             "SSECRET" " USDC" "not-a-key " " " Handlers.blank_ui))
     = None
  /\ Handlers.inFlight
       (Handlers.shown
          (Handlers.handleCreateTrustline
             (StellarMainnetExample.calm_world (fun _ => false))
             "SSECRET" " USDC" "not-a-key " " " Handlers.blank_ui))
     = None
  /\ Handlers.calls
       (Handlers.handleCreateTrustline (StellarMainnetExample.calm_world (fun _ => false))
          "SSECRET" " USDC" "not-a-key " " " Handlers.blank_ui)
     = [StellarMainnetExample.Event
          (StellarMainnetExample.StrKey_isValidEd25519PublicKey
             (JS.trim "not-a-key "))]
  /\ Handlers.uncaught
       (Handlers.handleCreateTrustline (StellarMainnetExample.calm_world (fun _ => false))
          "SSECRET" " USDC" "not-a-key " " " Handlers.blank_ui)
     = None.
Proof.
  apply (trustline_invalid_issuer_shown
           (StellarMainnetExample.calm_world (fun _ => false))
           "SSECRET" " USDC" "not-a-key " " " Handlers.blank_ui);
    reflexivity.
Defined.

Lemma thrown_Error_shown_verbatim_witness :
  Handlers.error
    (Handlers.shown
       (Handlers.handleSendNative
          (StellarMainnetExample.rejecting_world
             StellarMainnetExample.ledger_heap_with_status (JS.VObject 0))
          "SSECRET" " GDEST " "1.5 " Handlers.blank_ui))
  = Some (JS.VString "Horizon HTTP 400 – Bad Request – op_underfunded").
Proof.
  exact (proj1
           (thrown_Error_shown_verbatim
              (StellarMainnetExample.sendPaymentOnMainnet
                 (StellarMainnetExample.rejecting_world
                    StellarMainnetExample.ledger_heap_with_status (JS.VObject 0))
                 "SSECRET" "GDEST" "1.5")
              "XLM payment submitted. Check Horizon for confirmation."
              "Failed to send XLM payment"
              "Unable to send XLM payment. Inspect console for details."
              (Handlers.setOperationInFlight (Some App.native)
                 (Handlers.setInfo (Some "Submitting XLM payment to Horizon…")
                    (Handlers.setError None Handlers.blank_ui)))
              "Horizon HTTP 400 – Bad Request – op_underfunded"
              _ eq_refl)).
Defined.
